(** * Trai: extraction of UI latency metrics from an xcresult bundle

    A shallow embedding of [scripts/extract_ui_latency_metrics.py] and the
    properties its specification states about it.

    - JSON documents, as [json.loads] returns them, are the inductive [json];
      a Python [dict] is an insertion-ordered association list ([pydict]).
    - Python exceptions are the inductive [exn]; a computation that can raise
      returns a [result].
    - Python strings are [string]s of bytes (UTF-8).  The marker pattern only
      names ASCII characters, and no byte of a multi-byte UTF-8 sequence is
      ASCII, so matching bytes and matching code points agree; byte order and
      code-point order agree as well.
    - The external [xcresulttool] is an oracle [run_json_command], a Section
      variable, from the command line to the outcome of the call.
    - A Python [float] is kept abstract: [float_of_Q] rounds the exact value
      of a decimal literal into the type [F] of floats. *)

From Stdlib Require Import ZArith QArith Ascii String List Lia Sorting.Sorted
  DecimalString DecimalZ DecimalPos.
From stdpp Require Import base option list strings gmap.
From Equations Require Import Equations.

Local Open Scope string_scope.
Local Open Scope list_scope.

(** ** Exceptions and results *)

(** The exceptions the script can meet: a failed tool and a broken document
    from [run_json_command] ([OSError] when the tool cannot be started), the
    [RuntimeError] of [extract_metrics], and those of a method or a
    conversion applied to a value of the wrong kind. *)

Inductive exn : Type :=
| CalledProcessError (returncode : Z)
| JSONDecodeError
| RuntimeError (msg : string)
| AttributeError
| TypeError
| ValueError
| OSError.

Inductive result (A : Type) : Type :=
| Ok (a : A)
| Raise (e : exn).
Arguments Ok {A} a.
Arguments Raise {A} e.

Definition bind {A B : Type} (c : result A) (k : A -> result B) : result B :=
  match c with
  | Ok a => k a
  | Raise e => Raise e
  end.

Notation "'try' x <- c 'in' k" := (bind c (fun x => k))
  (at level 10, x name, c at level 100, k at level 200).

(** ** JSON values and Python dicts *)

(** A Python dict keeps its keys in insertion order; the first binding of a
    key in the list is the one the dict holds. *)
Definition pydict (V : Type) : Type := list (string * V).

(** What [json.loads] returns: [None], a bool, a number (by its exact value;
    the non-finite floats [json.loads] also reads are left out), a string, a
    list or a dict. *)
#[warnings="-register-all"]
Inductive json : Type :=
| JNull
| JBool (b : bool)
| JNum (q : Q)
| JStr (s : string)
| JList (l : list json)
| JDict (d : pydict json).

Section PyDict.
Context {V : Type}.

Fixpoint dict_lookup (k : string) (d : pydict V) : option V :=
  match d with
  | [] => None
  | (k', v) :: d' => if String.eqb k k' then Some v else dict_lookup k d'
  end.

(** [d[k] = v]: an existing key keeps its place, a new key goes last. *)
Fixpoint dict_set (k : string) (v : V) (d : pydict V) : pydict V :=
  match d with
  | [] => [(k, v)]
  | (k', v') :: d' =>
      if String.eqb k k' then (k, v) :: d' else (k', v') :: dict_set k v d'
  end.

Definition dict_keys (d : pydict V) : list string := map fst d.

(** [dict(items)] *)
Definition dict_of_items (items : list (string * V)) : pydict V :=
  fold_left (fun d kv => dict_set (fst kv) (snd kv) d) items [].
End PyDict.

(** [d.get(k)]: the value, or [None] (here [JNull]) for a missing key. *)
Definition get (k : string) (d : pydict json) : json :=
  match dict_lookup k d with
  | Some v => v
  | None => JNull
  end.

(** Python truthiness *)
Definition truthy (j : json) : bool :=
  match j with
  | JNull => false
  | JBool b => b
  | JNum q => negb (Z.eqb (Qnum q) 0)
  | JStr s => negb (String.eqb s "")
  | JList l => match l with [] => false | _ => true end
  | JDict d => match d with [] => false | _ => true end
  end.

(** [a or b] *)
Definition py_or (a b : json) : json := if truthy a then a else b.

Definition is_dict (j : json) : bool :=
  match j with JDict _ => true | _ => false end.

(** The loop [for child in xs: if isinstance(child, dict): stack.append(child)]
    run on a value [xs] that passed or failed [isinstance(xs, list)]. *)
Definition push_dicts (stack : list json) (xs : json) : list json :=
  match xs with
  | JList l => stack ++ List.filter is_dict l
  | _ => stack
  end.

(** [stack.pop()]: the last element and what is left. *)
Fixpoint pop {A : Type} (l : list A) : option (list A * A) :=
  match l with
  | [] => None
  | x :: l' =>
      match pop l' with
      | None => Some ([], x)
      | Some (r, y) => Some (x :: r, y)
      end
  end.

(** Size of a document, the measure of the two worklist loops. *)
Fixpoint json_size (j : json) : nat :=
  match j with
  | JList l => S (list_sum (map json_size l))
  | JDict d => S (list_sum (map (fun kv => json_size (snd kv)) d))
  | _ => 1
  end.

Definition stack_size (stack : list json) : nat :=
  list_sum (map json_size stack).

(** *** Facts about the measure, used by the termination proofs *)

Lemma pop_spec {A : Type} (l r : list A) (y : A) :
  pop l = Some (r, y) -> l = r ++ [y].
Proof.
  revert r y. induction l as [|x l IH]; intros r y; simpl; [discriminate|].
  destruct (pop l) as [[r' y']|] eqn:E.
  - intros [= <- <-]. simpl. f_equal. now apply IH.
  - intros [= <- <-]. destruct l as [|z l]; [reflexivity|].
    simpl in E. destruct (pop l) as [[? ?]|]; discriminate.
Qed.

Lemma pop_app {A : Type} (r : list A) (y : A) : pop (r ++ [y]) = Some (r, y).
Proof.
  induction r as [|x r IH]; simpl; [reflexivity|]. now rewrite IH.
Qed.

Lemma pop_None {A : Type} (l : list A) : pop l = None -> l = [].
Proof.
  destruct l as [|x l]; [reflexivity|]. simpl.
  destruct (pop l) as [[? ?]|]; discriminate.
Qed.

Lemma stack_size_app (s t : list json) :
  stack_size (s ++ t) = stack_size s + stack_size t.
Proof.
  unfold stack_size. induction s as [|x s IH]; simpl; [reflexivity|].
  rewrite IH. lia.
Qed.

Lemma stack_size_filter (p : json -> bool) (l : list json) :
  stack_size (List.filter p l) <= stack_size l.
Proof.
  unfold stack_size. induction l as [|x l IH]; simpl; [lia|].
  destruct (p x); simpl; lia.
Qed.

Lemma json_size_get (k : string) (d : pydict json) :
  json_size (get k d) <= json_size (JDict d).
Proof.
  unfold get. simpl. induction d as [|[k' v] d IH]; simpl; [lia|].
  destruct (String.eqb k k'); simpl.
  - lia.
  - destruct (dict_lookup k d); simpl in *; lia.
Qed.

Lemma push_dicts_size (rest : list json) (k : string) (d : pydict json) :
  stack_size (push_dicts rest (get k d)) < stack_size (rest ++ [JDict d]).
Proof.
  pose proof (json_size_get k d) as Hget.
  rewrite stack_size_app. unfold push_dicts.
  destruct (get k d) as [| | | |l|] eqn:E.
  all: try (unfold stack_size at 3; simpl; lia).
  rewrite stack_size_app. pose proof (stack_size_filter is_dict l) as Hf.
  unfold stack_size at 4. simpl in *. fold (stack_size l) in Hget. lia.
Qed.

(** ** TestNodeCollector: [collect_test_ids] *)

(** [node_type == "Test Case"] *)
Definition is_test_case (node_type : json) : bool :=
  match node_type with
  | JStr s => String.eqb s "Test Case"
  | _ => false
  end.

(** The body of [if node_type == "Test Case":], on the pair of [seen] and
    [test_ids]. *)
Definition record_test_id (node : pydict json)
    (st : gset string * list string) : gset string * list string :=
  if is_test_case (get "nodeType" node) then
    match py_or (get "nodeIdentifierURL" node) (get "nodeIdentifier" node) with
    | JStr test_id =>
        if negb (String.eqb test_id "") && negb (bool_decide (test_id ∈ st.1))
        then ({[test_id]} ∪ st.1, st.2 ++ [test_id])
        else st
    | _ => st
    end
  else st.

(** A value together with the equation that names it, for the termination
    proofs of the loops. *)
Definition inspect {A : Type} (a : A) : {b : A | a = b} := exist _ a eq_refl.

(** The [while stack:] loop.  [node.get] on a value that is no dict raises
    [AttributeError]. *)
Equations? collect_loop (stack : list json) (st : gset string * list string) :
    result (list string) by wf (stack_size stack) lt :=
  collect_loop stack st with inspect (pop stack) := {
    | exist _ None _ => Ok st.2
    | exist _ (Some (rest, JDict node)) _ =>
        collect_loop (push_dicts rest (get "children" node))
                     (record_test_id node st)
    | exist _ (Some (rest, _)) _ => Raise AttributeError }.
Proof.
  apply pop_spec in e. subst stack. apply push_dicts_size.
Qed.

Definition collect_test_ids (test_nodes : list json) : result (list string) :=
  collect_loop test_nodes (∅, []).

(** ** The marker pattern

    A backtracking matcher for the fragment of Python's [re] that
    [METRIC_PATTERN] is written in: literals, a greedy [+] over a character
    set, concatenation, a greedy optional group and numbered capture groups.
    The matcher is in continuation-passing style: the continuation is the
    rest of the pattern, and a failing continuation makes a greedy operator
    give back what it took. *)

Inductive regex : Type :=
| Lit (s : string)
| PlusSet (p : ascii -> bool)
| Cat (r1 r2 : regex)
| Opt (r : regex)
| Group (n : nat) (r : regex).

(** The text of the capture groups that took part in a match. *)
Definition captures : Type := list (nat * string).

Fixpoint group (n : nat) (m : captures) : option string :=
  match m with
  | [] => None
  | (i, s) :: m' => if Nat.eqb n i then Some s else group n m'
  end.

Fixpoint strip_prefix (p s : string) : option string :=
  match p, s with
  | EmptyString, _ => Some s
  | String a p', String b s' =>
      if Ascii.eqb a b then strip_prefix p' s' else None
  | String _ _, EmptyString => None
  end.

(** Zero or more characters of the set, the longest run first. *)
Fixpoint greedy {R : Type} (p : ascii -> bool) (s : string)
    (k : string -> option R) : option R :=
  match s with
  | String c s' =>
      if p c then
        match greedy p s' k with
        | Some r => Some r
        | None => k s
        end
      else k s
  | EmptyString => k s
  end.

(** What a sub-pattern consumed, from the input before and after it. *)
Definition taken (s rest : string) : string :=
  substring 0 (String.length s - String.length rest) s.

Fixpoint rmatch (r : regex) (s : string) (m : captures)
    (k : string -> captures -> option captures) : option captures :=
  match r with
  | Lit l =>
      match strip_prefix l s with
      | Some rest => k rest m
      | None => None
      end
  | PlusSet p =>
      match s with
      | String c s' => if p c then greedy p s' (fun rest => k rest m) else None
      | EmptyString => None
      end
  | Cat r1 r2 => rmatch r1 s m (fun rest m' => rmatch r2 rest m' k)
  | Opt r' =>
      match rmatch r' s m k with
      | Some res => Some res
      | None => k s m
      end
  | Group n r' => rmatch r' s m (fun rest m' => k rest ((n, taken s rest) :: m'))
  end.

(** [pattern.match(s)]: a match that starts at the first character. *)
Definition match_here (r : regex) (s : string) : option captures :=
  rmatch r s [] (fun _ m => Some m).

(** [pattern.search(s)]: the match at the leftmost position that has one. *)
Fixpoint search (r : regex) (s : string) : option captures :=
  match match_here r s with
  | Some m => Some m
  | None =>
      match s with
      | EmptyString => None
      | String _ s' => search r s'
      end
  end.

Definition in_range (lo hi c : ascii) : bool :=
  (Ascii.leb lo c && Ascii.leb c hi)%bool.

(** [[0-9]] *)
Definition digit (c : ascii) : bool := in_range "0" "9" c.

(** [[A-Za-z0-9_]] *)
Definition word (c : ascii) : bool :=
  (in_range "A" "Z" c || in_range "a" "z" c || in_range "0" "9" c
   || Ascii.eqb c "_")%bool.

(** [r"Latency metric ([A-Za-z0-9_]+)=([0-9]+(?:\.[0-9]+)?)s"] *)
Definition METRIC_PATTERN : regex :=
  Cat (Lit "Latency metric ")
   (Cat (Group 1 (PlusSet word))
    (Cat (Lit "=")
     (Cat (Group 2 (Cat (PlusSet digit) (Opt (Cat (Lit ".") (PlusSet digit)))))
      (Lit "s")))).

(** ** Decimal literals and [float] *)

(** Every character of the text is in the set. *)
Fixpoint string_forall (p : ascii -> bool) (s : string) : bool :=
  match s with
  | EmptyString => true
  | String c s' => (p c && string_forall p s')%bool
  end.

Definition all_digits (s : string) : bool :=
  (negb (String.eqb s "") && string_forall digit s)%bool.

Definition digit_value (c : ascii) : Z := Z.of_N (N_of_ascii c) - 48.

Definition digits_value (s : string) : Z :=
  fold_left (fun acc c => (10 * acc + digit_value c)%Z)
    (list_ascii_of_string s) 0%Z.

(** The text before the first ["."], and the text after it if there is one. *)
Fixpoint split_point (s : string) : string * option string :=
  match s with
  | EmptyString => (EmptyString, None)
  | String c s' =>
      if Ascii.eqb c "." then (EmptyString, Some s')
      else let '(i, f) := split_point s' in (String c i, f)
  end.

(** The exact value of an unsigned decimal literal, in lowest terms; [None]
    for a text that is not digits, or digits, a point and digits. *)
Definition decimal_value (s : string) : option Q :=
  match split_point s with
  | (i, None) =>
      if all_digits i then Some (inject_Z (digits_value i)) else None
  | (i, Some f) =>
      if (all_digits i && all_digits f)%bool
      then Some (Qred (digits_value (i ++ f)
                       # Pos.pow 10 (Pos.of_nat (String.length f))))
      else None
  end.

Section Scanner.
(** The floats, and the rounding of an exact value to the nearest float. *)
Context {F : Type} (float_of_Q : Q -> F).

(** [float(text)] on an unsigned decimal literal, the only syntax the
    pattern can capture ([float] knows other syntaxes, exponents and the
    like, which are a [ValueError] here). *)
Definition py_float (text : string) : result F :=
  match decimal_value text with
  | Some q => Ok (float_of_Q q)
  | None => Raise ValueError
  end.

(** The body of [if isinstance(title, str):].  Both groups of the pattern
    take part in every match of it, so [match.group] returns a string each
    time; the branch for a group that took no part cannot be reached, and
    stands for the [TypeError] of [float(None)]. *)
Definition record_metric (title : json) (metrics : pydict F) :
    result (pydict F) :=
  match title with
  | JStr title =>
      match search METRIC_PATTERN title with
      | Some m =>
          match group 1 m, group 2 m with
          | Some metric_name, Some text =>
              try value <- py_float text in
              Ok (dict_set metric_name value metrics)
          | _, _ => Raise TypeError
          end
      | None => Ok metrics
      end
  | _ => Ok metrics
  end.

Equations? scan_loop (stack : list json) (metrics : pydict F) :
    result (pydict F) by wf (stack_size stack) lt :=
  scan_loop stack metrics with inspect (pop stack) := {
    | exist _ None _ => Ok metrics
    | exist _ (Some (rest, JDict activity)) _ =>
        match record_metric (get "title" activity) metrics with
        | Ok metrics' =>
            scan_loop (push_dicts rest (get "childActivities" activity))
                      metrics'
        | Raise e => Raise e
        end
    | exist _ (Some (rest, _)) _ => Raise AttributeError }.
Proof.
  apply pop_spec in e. subst stack. apply push_dicts_size.
Qed.

Definition scan_activities_for_metrics (activities : list json)
    (metrics : pydict F) : result (pydict F) :=
  scan_loop activities metrics.
End Scanner.

(** ** ExtractionOrchestrator: [extract_metrics] and [main] *)

(** [sorted(items)] on the items of a dict.  Python compares the pairs by
    key first, and the keys of a dict differ, so the values are never
    compared: the sort is a stable sort on the key. *)
Section Sorted.
Context {V : Type}.

Fixpoint insert_item (kv : string * V) (l : list (string * V)) :
    list (string * V) :=
  match l with
  | [] => [kv]
  | kv' :: l' =>
      if String.leb (fst kv) (fst kv') then kv :: l
      else kv' :: insert_item kv l'
  end.

Definition sorted (items : list (string * V)) : list (string * V) :=
  fold_right insert_item [] items.
End Sorted.

(** An entry [{"test_id": ..., "error": ...}] of the report's [errors]. *)
Record extraction_error : Type := ExtractionError {
  test_id : string;
  error : string
}.

(** The dict [extract_metrics] returns. *)
Record report (F : Type) : Type := Report {
  xcresult_path : string;
  tests_scanned : nat;
  metric_count : nat;
  metrics : pydict F;
  errors : list extraction_error
}.
Arguments Report {F} _ _ _ _ _.
Arguments xcresult_path {F} _.
Arguments tests_scanned {F} _.
Arguments metric_count {F} _.
Arguments metrics {F} _.
Arguments errors {F} _.

(** [f"{n}"] for an integer *)
Definition string_of_Z (n : Z) : string := NilZero.string_of_int (Z.to_int n).

(** [int(text)] for the decimal text of an integer, to read a status back
    from a message. *)
Definition int_of_text (text : string) : option Z :=
  option_map Z.of_int (NilZero.int_of_string text).

Definition tests_command (path : string) : list string :=
  ["xcrun"; "xcresulttool"; "get"; "test-results"; "tests";
   "--path"; path; "--compact"].

Definition activities_command (path id : string) : list string :=
  ["xcrun"; "xcresulttool"; "get"; "test-results"; "activities";
   "--path"; path; "--test-id"; id; "--compact"].

(** [payload.get(key)] on what [json.loads] returned, which need not be a
    dict. *)
Definition payload_get (key : string) (payload : json) : result json :=
  match payload with
  | JDict d => Ok (get key d)
  | _ => Raise AttributeError
  end.

(** What [main] leaves behind: an exit status with the report it printed, if
    any, or the exception it did not catch. *)
Inductive outcome (F : Type) : Type :=
| Exit (status : Z) (printed : option (report F))
| Uncaught (e : exn).
Arguments Exit {F} status printed.
Arguments Uncaught {F} e.

(** The namespace [parse_args] returns; [out] is [None] when [--out] is not
    on the command line. *)
Record namespace : Type := Namespace {
  xcresult : string;
  out : option string;
  pretty : bool
}.

(** What [parse_args()] comes to: the namespace, or the exit argparse makes
    by itself (status 2 for a command line it refuses, 0 after [--help]). *)
Inductive parsed : Type :=
| Parsed (args : namespace)
| SystemExit (status : Z).

(** What [main] meets outside the script, the tool apart: the command line,
    and the file system behind [pathlib]. *)
Record host (F : Type) : Type := Host {
  (** [parse_args()] on the command line of the run *)
  parse_args : parsed;
  (** [str(Path(p).expanduser())]; a [RuntimeError] when the home directory
      cannot be found *)
  expanduser : string -> result string;
  (** [Path(p).exists()]; an [OSError] other than "no such file" (a
      directory on the way that may not be searched) is raised, not
      answered with [False] *)
  path_exists : string -> result bool;
  (** [Path(p).parent.mkdir(parents=True, exist_ok=True)] *)
  mkdir_parent : string -> result unit;
  (** [Path(p).write_text(json_text + "\n", encoding="utf-8")], where
      [json_text] is the text of the report, indented or not *)
  write_text : string -> report F -> bool -> result unit
}.
Arguments Host {F} _ _ _ _ _.
Arguments parse_args {F} _.
Arguments expanduser {F} _ _.
Arguments path_exists {F} _ _.
Arguments mkdir_parent {F} _ _.
Arguments write_text {F} _ _ _ _.

(** The body of [if args.out:]; an empty string is falsy as [None] is. *)
Definition write_out {F : Type} (w : host F) (args : namespace)
    (payload : report F) : result unit :=
  match out args with
  | Some o =>
      if String.eqb o "" then Ok tt
      else
        try output_path <- expanduser w o in
        try made <- mkdir_parent w output_path in
        write_text w output_path payload (pretty args)
  | None => Ok tt
  end.

(** The run got as far as the try statement of [main], with [path] for
    [xcresult_path]: the command line was accepted, the path expanded and
    the bundle is there. *)
Definition started {F : Type} (w : host F) (args : namespace)
    (path : string) : Prop :=
  parse_args w = Parsed args /\
  expanduser w (xcresult args) = Ok path /\
  path_exists w path = Ok true.

(** The exceptions the two [except] clauses of [main] handle. *)
Definition caught (e : exn) : bool :=
  match e with
  | CalledProcessError _ | JSONDecodeError | RuntimeError _ => true
  | _ => false
  end.

Section Orchestrator.
Context {F : Type} (float_of_Q : Q -> F).
(** [run_json_command]: the external tool and [json.loads] on its output. *)
Context (run_json_command : list string -> result json).

(** [for run in test_runs:] *)
Fixpoint scan_runs (test_runs : list json) (metrics : pydict F) :
    result (pydict F) :=
  match test_runs with
  | [] => Ok metrics
  | JDict run :: runs =>
      match get "activities" run with
      | JList activities =>
          try metrics' <-
            scan_activities_for_metrics float_of_Q activities metrics in
          scan_runs runs metrics'
      | _ => scan_runs runs metrics
      end
  | _ :: runs => scan_runs runs metrics
  end.

(** The body of [for test_id in test_ids:], on the pair of [metrics] and
    [extraction_errors]. *)
Definition scan_test (path id : string)
    (st : pydict F * list extraction_error) :
    result (pydict F * list extraction_error) :=
  match run_json_command (activities_command path id) with
  | Raise (CalledProcessError returncode) =>
      Ok (st.1,
          st.2 ++ [ExtractionError id
                     ("xcresulttool activities failed with exit code "
                      ++ string_of_Z returncode)])
  | Raise e => Raise e
  | Ok activities_payload =>
      try test_runs <- payload_get "testRuns" activities_payload in
      match test_runs with
      | JList test_runs =>
          try metrics' <- scan_runs test_runs st.1 in Ok (metrics', st.2)
      | _ => Ok st
      end
  end.

Fixpoint scan_tests (path : string) (test_ids : list string)
    (st : pydict F * list extraction_error) :
    result (pydict F * list extraction_error) :=
  match test_ids with
  | [] => Ok st
  | id :: ids => try st' <- scan_test path id st in scan_tests path ids st'
  end.

Definition extract_metrics (path : string) : result (report F) :=
  try tests_payload <- run_json_command (tests_command path) in
  try test_nodes <- payload_get "testNodes" tests_payload in
  match test_nodes with
  | JList test_nodes =>
      try test_ids <- collect_test_ids test_nodes in
      try st <- scan_tests path test_ids ([], []) in
      Ok (Report path (List.length test_ids) (List.length st.1)
                 (dict_of_items (sorted st.1)) st.2)
  | _ => Raise (RuntimeError "Unable to parse test nodes from xcresult.")
  end.

(** [main].  The text printed stands for the report it is the text of
    ([json.dumps] with sorted keys, indented when [args.pretty]); the file of
    [--out] is written before the report is printed.  The standard streams
    are taken to accept what [print] gives them; the messages on the error
    stream are not part of the outcome. *)
Definition main (w : host F) : outcome F :=
  match parse_args w with
  | SystemExit status => Exit status None
  | Parsed args =>
      match expanduser w (xcresult args) with
      | Raise e => Uncaught e
      | Ok xcresult_path =>
          match path_exists w xcresult_path with
          | Raise e => Uncaught e
          | Ok there =>
              if negb there then Exit 1 None
              else
                match extract_metrics xcresult_path with
                | Raise (CalledProcessError _) => Exit 1 None
                | Raise JSONDecodeError => Exit 1 None
                | Raise (RuntimeError _) => Exit 1 None
                | Raise e => Uncaught e
                | Ok payload =>
                    match write_out w args payload with
                    | Ok _ => Exit 0 (Some payload)
                    | Raise e => Uncaught e
                    end
                end
          end
      end
  end.

(** [main] once the run has [started]. *)
Definition main_try (w : host F) (args : namespace) (path : string) :
    outcome F :=
  match extract_metrics path with
  | Raise (CalledProcessError _) => Exit 1 None
  | Raise JSONDecodeError => Exit 1 None
  | Raise (RuntimeError _) => Exit 1 None
  | Raise e => Uncaught e
  | Ok payload =>
      match write_out w args payload with
      | Ok _ => Exit 0 (Some payload)
      | Raise e => Uncaught e
      end
  end.
End Orchestrator.

Lemma main_started {F : Type} (float_of_Q : Q -> F)
    (run_json_command : list string -> result json) (w : host F)
    (args : namespace) (path : string) :
  started w args path ->
  main float_of_Q run_json_command w
  = main_try float_of_Q run_json_command w args path.
Proof.
  intros (Hp & He & Hx). unfold main, main_try. now rewrite Hp, He, Hx.
Qed.


(** * Properties *)

(** ** The worklist discipline *)

(** [node] is met when the walk that follows the field [key] starts at
    [root]: it is [root] itself, or it is met from a dict among the entries
    of [root]'s [key] list. *)
Inductive descendant (key : string) : json -> pydict json -> Prop :=
| descendant_self (d : pydict json) : descendant key (JDict d) d
| descendant_child (d : pydict json) (l : list json) (c : json)
    (n : pydict json) :
    get key d = JList l -> c ∈ l -> descendant key c n ->
    descendant key (JDict d) n.

(** Some entry of the worklist leads to [node]. *)
Definition reaches (key : string) (stack : list json) (node : pydict json) :
    Prop :=
  exists root, root ∈ stack /\ descendant key root node.

Lemma descendant_is_dict key root n : descendant key root n -> is_dict root = true.
Proof. now destruct 1. Qed.

Lemma reaches_nil key n : ~ reaches key [] n.
Proof. intros (r & Hr & _). now apply elem_of_nil in Hr. Qed.

Lemma elem_of_filter_dict (c : json) (l : list json) :
  c ∈ List.filter is_dict l <-> c ∈ l /\ is_dict c = true.
Proof. rewrite !list_elem_of_In. apply filter_In. Qed.

(** One turn of the loop, seen from the nodes still to be met. *)
Lemma reaches_step key rest d n :
  reaches key (rest ++ [JDict d]) n <->
  n = d \/ reaches key (push_dicts rest (get key d)) n.
Proof.
  unfold reaches, push_dicts. split.
  - intros (r & Hr & Hd). apply elem_of_app in Hr as [Hr|Hr].
    + right. exists r. split; [|assumption].
      destruct (get key d); try assumption. apply elem_of_app. now left.
    + apply list_elem_of_singleton in Hr. subst r.
      inversion Hd as [|d' l c n' Hg Hc Hdc]; subst; [now left|].
      right. exists c. split; [|assumption]. rewrite Hg.
      apply elem_of_app. right. apply elem_of_filter_dict.
      split; [assumption|]. eapply descendant_is_dict; eassumption.
  - intros [->|(r & Hr & Hd)].
    + exists (JDict d). split; [|constructor].
      apply elem_of_app. right. now apply list_elem_of_singleton.
    + destruct (get key d) as [| | | |l|] eqn:Hg.
      all: try (exists r; split; [apply elem_of_app; now left|assumption]).
      apply elem_of_app in Hr as [Hr|Hr].
      * exists r. split; [apply elem_of_app; now left|assumption].
      * apply elem_of_filter_dict in Hr as [Hr _].
        exists (JDict d). split.
        -- apply elem_of_app. right. now apply list_elem_of_singleton.
        -- econstructor; eassumption.
Qed.

Lemma Forall_push_dicts (rest : list json) (xs : json) :
  Forall (fun j => is_dict j = true) rest ->
  Forall (fun j => is_dict j = true) (push_dicts rest xs).
Proof.
  intros H. destruct xs; simpl; try assumption.
  apply Forall_app. split; [assumption|].
  apply Forall_forall. intros c Hc. now apply elem_of_filter_dict in Hc.
Qed.

(** A worklist is empty or has a last entry. *)
Lemma stack_cases {A : Type} (l : list A) :
  l = [] \/ exists r y, l = r ++ [y].
Proof.
  destruct (pop l) as [[r y]|] eqn:E.
  - right. exists r, y. now apply pop_spec.
  - left. now apply pop_None.
Qed.

(** ** [collect_test_ids] *)

Lemma collect_loop_nil st : collect_loop [] st = Ok st.2.
Proof. now rewrite collect_loop_equation_1. Qed.

Lemma collect_loop_dict rest node st :
  collect_loop (rest ++ [JDict node]) st
  = collect_loop (push_dicts rest (get "children" node))
                 (record_test_id node st).
Proof.
  rewrite collect_loop_equation_1.
  generalize (inspect (pop (rest ++ [JDict node]))). intros [o e].
  assert (o = Some (rest, JDict node)) as ->
    by (rewrite <- e; apply pop_app).
  now rewrite collect_loop_clause_1_equation_6.
Qed.

Lemma collect_loop_not_dict rest x st :
  is_dict x = false -> collect_loop (rest ++ [x]) st = Raise AttributeError.
Proof.
  intros Hx. rewrite collect_loop_equation_1.
  generalize (inspect (pop (rest ++ [x]))). intros [o e].
  assert (o = Some (rest, x)) as -> by (rewrite <- e; apply pop_app).
  destruct x; try discriminate; now simp collect_loop.
Qed.

(** The identifier a node stands for: the one the body of
    [if node_type == "Test Case":] would record in a fresh state. *)
Definition node_test_id (node : pydict json) : option string :=
  if is_test_case (get "nodeType" node) then
    match py_or (get "nodeIdentifierURL" node) (get "nodeIdentifier" node) with
    | JStr id => if String.eqb id "" then None else Some id
    | _ => None
    end
  else None.

(** The invariant of the loop: [seen] holds what [test_ids] holds, and
    [test_ids] has no repetition. *)
Definition collect_inv (st : gset string * list string) : Prop :=
  NoDup st.2 /\ forall id, id ∈ st.1 <-> id ∈ st.2.

Lemma collect_inv_init : collect_inv (∅, []).
Proof.
  split; simpl; [constructor|]. intros id. split; intros H.
  - now apply not_elem_of_empty in H.
  - now apply elem_of_nil in H.
Qed.

Lemma record_test_id_spec node st :
  collect_inv st ->
  collect_inv (record_test_id node st) /\
  st.2 `prefix_of` (record_test_id node st).2 /\
  forall id, id ∈ (record_test_id node st).2 <->
             id ∈ st.2 \/ node_test_id node = Some id.
Proof.
  intros [Hnd Hseen]. unfold record_test_id, node_test_id.
  assert (Hsame : collect_inv st /\ st.2 `prefix_of` st.2 /\
                  forall id, id ∈ st.2 <-> id ∈ st.2 \/ None = Some id).
  { split; [now split|]. split; [reflexivity|].
    intros id. split; [now left|now intros [H|H]]. }
  destruct (is_test_case (get "nodeType" node)); [|exact Hsame].
  destruct (py_or _ _) as [| | |s| |]; try exact Hsame.
  destruct (String.eqb_spec s "") as [->|Hne]; simpl; [exact Hsame|].
  case_bool_decide as Hin; simpl.
  - split; [now split|]. split; [reflexivity|].
    intros id. split; [now left|].
    intros [H|[= <-]]; [assumption|]. now apply Hseen.
  - assert (s ∉ st.2) as Hnin by (now rewrite <- Hseen).
    split; [split; [|intros id; split]|split; [|intros id; split]]; simpl.
    + apply NoDup_app. repeat split; [assumption| |apply NoDup_singleton].
      intros x Hx Hx'. apply list_elem_of_singleton in Hx'. now subst.
    + intros H. apply elem_of_app. apply elem_of_union in H as [H|H].
      * right. apply elem_of_singleton in H. subst.
        now apply list_elem_of_singleton.
      * left. now apply Hseen.
    + intros H. apply elem_of_union. apply elem_of_app in H as [H|H].
      * right. now apply Hseen.
      * left. apply list_elem_of_singleton in H. subst.
        now apply elem_of_singleton.
    + now apply prefix_app_r.
    + intros H. apply elem_of_app in H as [H|H]; [now left|].
      apply list_elem_of_singleton in H. now subst; right.
    + intros [H|[= <-]]; apply elem_of_app; [now left|right].
      now apply list_elem_of_singleton.
Qed.

(** The loop returns, and returns the identifiers already held followed by
    those of the nodes still to be met, none of them twice. *)
Lemma collect_loop_spec (stack : list json) :
  forall st,
    Forall (fun j => is_dict j = true) stack ->
    collect_inv st ->
    exists ids,
      collect_loop stack st = Ok ids /\ NoDup ids /\
      st.2 `prefix_of` ids /\
      forall id, id ∈ ids <->
        id ∈ st.2 \/
        exists node, reaches "children" stack node /\
                     node_test_id node = Some id.
Proof.
  induction stack as [stack IH] using (induction_ltof1 _ stack_size).
  intros st Hdict Hinv. destruct (stack_cases stack) as [->|(rest & x & ->)].
  - exists st.2. rewrite collect_loop_nil. destruct Hinv as [Hnd _].
    split_and!; [reflexivity|assumption|reflexivity|].
    intros id. split; [now left|].
    intros [H|(n & Hn & _)]; [assumption|]. now apply reaches_nil in Hn.
  - apply Forall_app in Hdict as [Hrest Hx].
    apply Forall_inv in Hx. destruct x as [| | | | |node]; try discriminate.
    destruct (record_test_id_spec node st Hinv) as (Hinv' & Hpre & Hmem).
    destruct (IH (push_dicts rest (get "children" node))
                 (push_dicts_size rest "children" node)
                 (record_test_id node st)
                 (Forall_push_dicts _ _ Hrest) Hinv')
      as (ids & Hrun & Hnd & Hpre' & Hids).
    exists ids. rewrite collect_loop_dict.
    split_and!; [assumption|assumption|etransitivity; eassumption|].
    intros id. split.
    + intros H. apply Hids in H as [H|(n & Hn & Hid)].
      * apply Hmem in H as [H|H]; [now left|].
        right. exists node. split; [|assumption].
        apply reaches_step. now left.
      * right. exists n. split; [|assumption]. apply reaches_step. now right.
    + intros [H|(n & Hn & Hid)]; apply Hids.
      * left. apply Hmem. now left.
      * apply reaches_step in Hn as [->|Hn].
        -- left. apply Hmem. now right.
        -- right. now exists n.
Qed.

(** The forest of the repository's own test: a plan with a test case and a
    suite, the suite with a test case. *)
Definition test_case_node (fields : pydict json) : json :=
  JDict (("nodeType", JStr "Test Case") :: fields).

Definition sample_forest : list json :=
  [JDict
     [("nodeType", JStr "Test Plan");
      ("children",
       JList
         [test_case_node [("nodeIdentifierURL", JStr "test://A")];
          JDict
            [("nodeType", JStr "Test Suite");
             ("children",
              JList [test_case_node [("nodeIdentifier", JStr "test://B")]])]])]].

Example collect_sample_forest :
  collect_test_ids sample_forest = Ok ["test://B"; "test://A"].
Proof. vm_compute. reflexivity. Qed.



(** C9: on a test-case node whose [nodeIdentifierURL] is truthy and not a
    string the body of the loop records nothing, whatever [nodeIdentifier]
    holds: the loop goes on as if the node had no identifier. *)
Theorem collect_truthy_non_string_url (node : pydict json) :
  is_test_case (get "nodeType" node) = true ->
  truthy (get "nodeIdentifierURL" node) = true ->
  (forall u, get "nodeIdentifierURL" node <> JStr u) ->
  (forall st, record_test_id node st = st) /\
  (forall rest st,
     collect_loop (rest ++ [JDict node]) st
     = collect_loop (push_dicts rest (get "children" node)) st) /\
  (get "children" node = JNull -> collect_test_ids [JDict node] = Ok []).
Proof.
  intros Htc Ht Hns.
  assert (Hrec : forall st, record_test_id node st = st).
  { intros st. unfold record_test_id, py_or. rewrite Htc, Ht.
    destruct (get "nodeIdentifierURL" node) as [| | |u| |]; try reflexivity.
    now destruct (Hns u). }
  split_and!; [exact Hrec| |].
  - intros rest st. now rewrite collect_loop_dict, Hrec.
  - intros Hch. unfold collect_test_ids.
    rewrite (collect_loop_dict [] node), Hrec, Hch. simpl.
    now rewrite collect_loop_nil.
Qed.

Definition numeric_url_node : pydict json :=
  [("nodeType", JStr "Test Case");
   ("nodeIdentifierURL", JNum 12345);
   ("nodeIdentifier", JStr "SuiteA/testOne")].

Lemma collect_truthy_non_string_url_witness :
  (is_test_case (get "nodeType" numeric_url_node) = true /\
   truthy (get "nodeIdentifierURL" numeric_url_node) = true /\
   get "nodeIdentifier" numeric_url_node = JStr "SuiteA/testOne") /\
  collect_test_ids [JDict numeric_url_node] = Ok [].
Proof.
  split; [now split_and!|].
  apply (collect_truthy_non_string_url numeric_url_node); try reflexivity.
  intros u. discriminate.
Defined.

(** ** The marker pattern *)

(** What the pattern language means: [matches r c m m'] when [r] matches the
    text [c] exactly and turns the captures [m] into [m']. *)
Inductive matches : regex -> string -> captures -> captures -> Prop :=
| matches_lit (l : string) (m : captures) : matches (Lit l) l m m
| matches_plus (p : ascii -> bool) (c : string) (m : captures) :
    c <> "" -> string_forall p c = true -> matches (PlusSet p) c m m
| matches_cat (r1 r2 : regex) (c1 c2 : string) (m m1 m2 : captures) :
    matches r1 c1 m m1 -> matches r2 c2 m1 m2 ->
    matches (Cat r1 r2) (c1 ++ c2) m m2
| matches_opt_some (r : regex) (c : string) (m m' : captures) :
    matches r c m m' -> matches (Opt r) c m m'
| matches_opt_none (r : regex) (m : captures) : matches (Opt r) "" m m
| matches_group (n : nat) (r : regex) (c : string) (m m' : captures) :
    matches r c m m' -> matches (Group n r) c m ((n, c) :: m').

Lemma append_nil (t : string) : ("" ++ t)%string = t.
Proof. reflexivity. Qed.

Lemma append_cons (a : ascii) (s t : string) :
  (String a s ++ t)%string = String a (s ++ t).
Proof. reflexivity. Qed.

(** [String.append] does not unfold under [simpl]. *)
Ltac simpl_append := rewrite ?append_cons, ?append_nil; simpl.

Lemma append_assoc (a b c : string) :
  ((a ++ b) ++ c)%string = (a ++ (b ++ c))%string.
Proof.
  induction a as [|x a IH]; simpl_append; [reflexivity|]. now rewrite IH.
Qed.

Lemma append_empty_r (a : string) : (a ++ "")%string = a.
Proof.
  induction a as [|x a IH]; simpl_append; [reflexivity|]. now rewrite IH.
Qed.

Lemma length_append (a b : string) :
  String.length (a ++ b) = String.length a + String.length b.
Proof.
  induction a as [|x a IH]; simpl_append; [reflexivity|]. now rewrite IH.
Qed.

Lemma strip_prefix_spec (l s rest : string) :
  strip_prefix l s = Some rest <-> s = (l ++ rest)%string.
Proof.
  revert s. induction l as [|a l IH]; intros s; simpl.
  - split; [now intros [= ->]|now intros ->].
  - destruct s as [|b s]; [split; discriminate|].
    destruct (Ascii.eqb_spec a b) as [->|Hne].
    + rewrite IH. split; [now intros ->|now intros [= ->]].
    + split; [discriminate|]. intros [= -> _]. now destruct Hne.
Qed.

Lemma taken_append (c rest : string) : taken (c ++ rest) rest = c.
Proof.
  unfold taken. rewrite length_append.
  replace (String.length c + String.length rest - String.length rest)
    with (String.length c) by lia.
  induction c as [|x c IH]; simpl_append.
  - now destruct rest.
  - now rewrite IH.
Qed.

Lemma greedy_sound {R : Type} (p : ascii -> bool) (s : string)
    (k : string -> option R) (r : R) :
  greedy p s k = Some r ->
  exists run rest,
    s = (run ++ rest)%string /\ string_forall p run = true /\ k rest = Some r.
Proof.
  induction s as [|c s IH]; simpl.
  - intros H. now exists "", "".
  - destruct (p c) eqn:Hc; [|intros H; now exists "", (String c s)].
    destruct (greedy p s k) as [r'|] eqn:Hg.
    + intros [= ->]. destruct (IH eq_refl) as (run & rest & -> & Hrun & Hk).
      exists (String c run), rest. simpl. now rewrite Hc, Hrun.
    + intros H. now exists "", (String c s).
Qed.

(** The matcher only finds what the pattern means. *)
Lemma rmatch_sound (r : regex) :
  forall s m k res,
    rmatch r s m k = Some res ->
    exists c rest m',
      s = (c ++ rest)%string /\ matches r c m m' /\ k rest m' = Some res.
Proof.
  induction r as [l|p|r1 IH1 r2 IH2|r IH|n r IH]; intros s m k res; simpl.
  - destruct (strip_prefix l s) as [rest|] eqn:E; [|discriminate].
    intros H. apply strip_prefix_spec in E. exists l, rest, m.
    split_and!; [assumption|constructor|assumption].
  - destruct s as [|c s]; [discriminate|].
    destruct (p c) eqn:Hc; [|discriminate]. intros H.
    apply greedy_sound in H as (run & rest & -> & Hrun & Hk).
    exists (String c run), rest, m. split_and!; [reflexivity| |assumption].
    constructor; [discriminate|]. simpl. now rewrite Hc, Hrun.
  - intros H. apply IH1 in H as (c1 & rest1 & m1 & -> & Hm1 & H).
    apply IH2 in H as (c2 & rest & m2 & -> & Hm2 & H).
    exists (c1 ++ c2)%string, rest, m2.
    split_and!; [now rewrite append_assoc|econstructor; eassumption|assumption].
  - destruct (rmatch r s m k) as [res'|] eqn:E.
    + intros [= ->]. apply IH in E as (c & rest & m' & -> & Hm & H).
      exists c, rest, m'. split_and!; [reflexivity|now constructor|assumption].
    + intros H. exists "", s, m.
      split_and!; [reflexivity|apply matches_opt_none|assumption].
  - intros H. apply IH in H as (c & rest & m' & -> & Hm & H).
    rewrite taken_append in H. exists c, rest, ((n, c) :: m').
    split_and!; [reflexivity|now constructor|assumption].
Qed.

(** Inversion of [matches], one lemma per construct. *)

Lemma matches_lit_inv l c m m' :
  matches (Lit l) c m m' -> c = l /\ m' = m.
Proof. inversion 1; now subst. Qed.

Lemma matches_plus_inv p c m m' :
  matches (PlusSet p) c m m' ->
  c <> "" /\ string_forall p c = true /\ m' = m.
Proof. inversion 1; now subst. Qed.

Lemma matches_cat_inv r1 r2 c m m' :
  matches (Cat r1 r2) c m m' ->
  exists c1 c2 m1,
    c = (c1 ++ c2)%string /\ matches r1 c1 m m1 /\ matches r2 c2 m1 m'.
Proof. inversion 1; subst. eauto 6. Qed.

Lemma matches_opt_inv r c m m' :
  matches (Opt r) c m m' -> matches r c m m' \/ (c = "" /\ m' = m).
Proof. inversion 1; subst; auto. Qed.

Lemma matches_group_inv n r c m m' :
  matches (Group n r) c m m' ->
  exists m1, matches r c m m1 /\ m' = (n, c) :: m1.
Proof. inversion 1; subst; eauto. Qed.

(** The text of a marker: the phrase, a name, ["="], a number and ["s"]. *)
Definition marker (name number : string) : string :=
  ("Latency metric " ++ name ++ "=" ++ number ++ "s")%string.

(** An unsigned decimal number: digits, or digits, a point and digits. *)
Definition is_decimal (text : string) : Prop :=
  all_digits text = true \/
  exists i f, text = (i ++ "." ++ f)%string /\
              all_digits i = true /\ all_digits f = true.

Definition is_name (name : string) : Prop :=
  name <> "" /\ string_forall word name = true.

Lemma all_digits_intro (s : string) :
  s <> "" -> string_forall digit s = true -> all_digits s = true.
Proof.
  intros Hne Hd. unfold all_digits. apply String.eqb_neq in Hne.
  now rewrite Hne, Hd.
Qed.

(** A match of [METRIC_PATTERN] is the text of a marker, and its two groups
    are the name and the number of that marker. *)
Lemma matches_metric_pattern (c : string) (m : captures) :
  matches METRIC_PATTERN c [] m ->
  exists name number,
    c = marker name number /\ m = [(2, number); (1, name)] /\
    is_name name /\ is_decimal number.
Proof.
  unfold METRIC_PATTERN. intros H.
  apply matches_cat_inv in H as (c0 & c' & m0 & -> & H0 & H).
  apply matches_lit_inv in H0 as [-> ->].
  apply matches_cat_inv in H as (name & c'' & m1 & -> & H1 & H).
  apply matches_group_inv in H1 as (m1' & H1 & ->).
  apply matches_plus_inv in H1 as (Hne & Hw & ->).
  apply matches_cat_inv in H as (c2 & c3 & m2 & -> & H2 & H).
  apply matches_lit_inv in H2 as [-> ->].
  apply matches_cat_inv in H as (number & c4 & m3 & -> & H3 & H).
  apply matches_lit_inv in H as [-> ->].
  apply matches_group_inv in H3 as (m3' & H3 & ->).
  apply matches_cat_inv in H3 as (i & f & m4 & -> & Hi & Hf).
  apply matches_plus_inv in Hi as (Hine & Hid & ->).
  pose proof (all_digits_intro i Hine Hid) as Hi.
  exists name, (i ++ f)%string.
  apply matches_opt_inv in Hf as [Hf|[-> ->]].
  - apply matches_cat_inv in Hf as (c5 & f' & m5 & -> & H5 & Hf).
    apply matches_lit_inv in H5 as [-> ->].
    apply matches_plus_inv in Hf as (Hfne & Hfd & ->).
    split_and!; [reflexivity|reflexivity|now split|].
    right. exists i, f'. split_and!; [reflexivity|assumption|].
    now apply all_digits_intro.
  - split_and!; [reflexivity|reflexivity|now split|].
    left. now rewrite append_empty_r.
Qed.

(** The text does not go on with a character of the set. *)
Definition stops (p : ascii -> bool) (rest : string) : bool :=
  match rest with
  | EmptyString => true
  | String c _ => negb (p c)
  end.

Lemma greedy_stops {R : Type} (p : ascii -> bool) (rest : string)
    (k : string -> option R) :
  stops p rest = true -> greedy p rest k = k rest.
Proof.
  destruct rest as [|c rest]; simpl; [reflexivity|].
  now destruct (p c).
Qed.

(** A greedy run takes the whole run when the continuation accepts that. *)
Lemma greedy_maximal {R : Type} (p : ascii -> bool) (run rest : string)
    (k : string -> option R) (r : R) :
  string_forall p run = true -> stops p rest = true -> k rest = Some r ->
  greedy p (run ++ rest) k = Some r.
Proof.
  intros Hrun Hstop Hk. induction run as [|c run IH]; simpl_append.
  - now rewrite greedy_stops.
  - simpl in Hrun. apply andb_prop in Hrun as [Hc Hrun].
    now rewrite Hc, (IH Hrun).
Qed.

Lemma rmatch_lit (l s : string) (m : captures)
    (k : string -> captures -> option captures) :
  rmatch (Lit l) (l ++ s) m k = k s m.
Proof.
  simpl. now rewrite (proj2 (strip_prefix_spec l (l ++ s) s) eq_refl).
Qed.

Lemma rmatch_plus (p : ascii -> bool) (c rest : string) (m res : captures)
    (k : string -> captures -> option captures) :
  c <> "" -> string_forall p c = true -> stops p rest = true ->
  k rest m = Some res ->
  rmatch (PlusSet p) (c ++ rest) m k = Some res.
Proof.
  intros Hne Hc Hstop Hk. destruct c as [|x c]; [contradiction|].
  simpl_append. simpl in Hc. apply andb_prop in Hc as [Hx Hc]. rewrite Hx.
  now apply greedy_maximal.
Qed.

Lemma all_digits_elim (s : string) :
  all_digits s = true -> s <> "" /\ string_forall digit s = true.
Proof.
  unfold all_digits. intros H. apply andb_prop in H as [Hne Hd].
  split; [|assumption]. apply String.eqb_neq. now destruct (String.eqb s "").
Qed.

Lemma rmatch_cat r1 r2 s m k :
  rmatch (Cat r1 r2) s m k = rmatch r1 s m (fun rest m' => rmatch r2 rest m' k).
Proof. reflexivity. Qed.

Lemma rmatch_group n r s m k :
  rmatch (Group n r) s m k
  = rmatch r s m (fun rest m' => k rest ((n, taken s rest) :: m')).
Proof. reflexivity. Qed.

Lemma rmatch_opt_some r s m k res :
  rmatch r s m k = Some res -> rmatch (Opt r) s m k = Some res.
Proof. intros H. simpl. now rewrite H. Qed.

Lemma rmatch_opt_none r s m k :
  rmatch r s m k = None -> rmatch (Opt r) s m k = k s m.
Proof. intros H. simpl. now rewrite H. Qed.

(** At the start of a marker the pattern matches, and its groups are the
    name and the number of the marker. *)
Lemma match_here_marker (name number tail : string) :
  is_name name -> is_decimal number ->
  match_here METRIC_PATTERN (marker name number ++ tail)
  = Some [(2, number); (1, name)].
Proof.
  intros [Hne Hw] Hnum. unfold match_here, METRIC_PATTERN, marker.
  rewrite !append_assoc.
  rewrite rmatch_cat, rmatch_lit, rmatch_cat, rmatch_group.
  apply rmatch_plus; [assumption|assumption|reflexivity|].
  rewrite taken_append, rmatch_cat, rmatch_lit, rmatch_cat, rmatch_group,
    rmatch_cat.
  destruct Hnum as [Hd|(i & f & -> & Hi & Hf)].
  - apply all_digits_elim in Hd as [Hdne Hd].
    apply rmatch_plus; [assumption|assumption|reflexivity|].
    rewrite rmatch_opt_none by reflexivity.
    now rewrite taken_append, rmatch_lit.
  - apply all_digits_elim in Hi as [Hine Hi].
    apply all_digits_elim in Hf as [Hfne Hf].
    rewrite !append_assoc.
    apply rmatch_plus; [assumption|assumption|reflexivity|].
    apply rmatch_opt_some. rewrite rmatch_cat, rmatch_lit.
    apply rmatch_plus; [assumption|assumption|reflexivity|].
    replace (i ++ "." ++ f ++ "s" ++ tail)%string
      with ((i ++ "." ++ f) ++ "s" ++ tail)%string
      by (now rewrite !append_assoc).
    now rewrite taken_append, rmatch_lit.
Qed.

(** [search] returns the match at the first position that has one. *)
Lemma search_leftmost (r : regex) (s : string) (m : captures) :
  search r s = Some m <->
  exists p q,
    s = (p ++ q)%string /\ match_here r q = Some m /\
    forall p' q', s = (p' ++ q')%string ->
                  String.length p' < String.length p ->
                  match_here r q' = None.
Proof.
  revert m. induction s as [|c s IH]; intros m; simpl.
  - destruct (match_here r "") as [m'|] eqn:E.
    + split.
      * intros [= ->]. exists "", "". split_and!; [reflexivity|assumption|].
        simpl. intros; lia.
      * intros (p & q & Hs & Hq & _).
        destruct p; [|discriminate]. rewrite append_nil in Hs. subst q.
        congruence.
    + split; [discriminate|].
      intros (p & q & Hs & Hq & _).
      destruct p; [|discriminate]. rewrite append_nil in Hs. subst q.
      congruence.
  - destruct (match_here r (String c s)) as [m'|] eqn:E.
    + split.
      * intros [= ->]. exists "", (String c s).
        split_and!; [reflexivity|assumption|]. simpl. intros; lia.
      * intros (p & q & Hs & Hq & Hmin).
        destruct p as [|x p].
        -- rewrite append_nil in Hs. subst q. congruence.
        -- specialize (Hmin "" (String c s) eq_refl). simpl in Hmin.
           rewrite Hmin in E by lia. discriminate.
    + rewrite IH. split.
      * intros (p & q & -> & Hq & Hmin). exists (String c p), q.
        split_and!; [reflexivity|assumption|].
        intros p' q' Hs Hlen. destruct p' as [|x p'].
        -- rewrite append_nil in Hs. now subst q'.
        -- rewrite !append_cons in Hs. injection Hs as _ Hs.
           apply (Hmin p' q' Hs). simpl in Hlen. lia.
      * intros (p & q & Hs & Hq & Hmin). destruct p as [|x p].
        -- rewrite append_nil in Hs. subst q. congruence.
        -- rewrite append_cons in Hs. injection Hs as -> ->.
           exists p, q. split_and!; [reflexivity|assumption|].
           intros p' q' Hs Hlen.
           apply (Hmin (String x p') q');
             [now rewrite append_cons, Hs|simpl; lia].
Qed.

(** What a successful search of a title for [METRIC_PATTERN] returns. *)
Lemma search_metric_pattern (title : string) (m : captures) :
  search METRIC_PATTERN title = Some m ->
  exists name number,
    m = [(2, number); (1, name)] /\ is_name name /\ is_decimal number /\
    exists before after,
      title = (before ++ marker name number ++ after)%string.
Proof.
  intros H. apply search_leftmost in H as (p & q & -> & Hq & _).
  unfold match_here in Hq.
  apply rmatch_sound in Hq as (c & rest & m' & -> & Hm & [= ->]).
  apply matches_metric_pattern in Hm as (name & number & -> & -> & Hn & Hd).
  exists name, number. split_and!; try assumption; [reflexivity|].
  now exists p, rest.
Qed.

(** ** Decimal literals *)

Lemma digit_not_point (c : ascii) : digit c = true -> Ascii.eqb c "." = false.
Proof.
  destruct c as [[] [] [] [] [] [] [] []]; try discriminate; reflexivity.
Qed.

Lemma split_point_digits (s : string) :
  string_forall digit s = true -> split_point s = (s, None).
Proof.
  induction s as [|c s IH]; simpl; [reflexivity|]. intros H.
  apply andb_prop in H as [Hc Hs].
  now rewrite (digit_not_point c Hc), (IH Hs).
Qed.

Lemma split_point_append (i f : string) :
  string_forall digit i = true ->
  split_point (i ++ "." ++ f) = (i, Some f).
Proof.
  change ("." ++ f)%string with (String "." f).
  induction i as [|c i IH]; simpl_append; [reflexivity|]. intros H.
  apply andb_prop in H as [Hc Hi].
  now rewrite (digit_not_point c Hc), (IH Hi).
Qed.

(** [float] accepts every number the pattern can capture. *)
Lemma decimal_value_is_decimal (text : string) :
  is_decimal text -> exists q, decimal_value text = Some q.
Proof.
  unfold decimal_value. intros [Hd|(i & f & -> & Hi & Hf)].
  - destruct (all_digits_elim text Hd) as [_ Hall].
    rewrite (split_point_digits text Hall), Hd. eauto.
  - destruct (all_digits_elim i Hi) as [_ Hall].
    rewrite (split_point_append i f Hall), Hi, Hf. simpl. eauto.
Qed.

(** ** Python dicts *)

Section PyDictFacts.
Context {V : Type}.
Implicit Types (d : pydict V) (k : string) (v : V).

Lemma dict_lookup_set k k' v d :
  dict_lookup k' (dict_set k v d)
  = if String.eqb k' k then Some v else dict_lookup k' d.
Proof.
  induction d as [|[k0 v0] d IH]; simpl.
  - reflexivity.
  - destruct (String.eqb_spec k k0) as [->|Hne]; simpl.
    + now destruct (String.eqb k' k0).
    + rewrite IH. destruct (String.eqb_spec k' k0) as [->|Hne'];
        [|reflexivity].
      now rewrite (proj2 (String.eqb_neq k0 k)) by congruence.
Qed.

Lemma dict_lookup_set_eq k v d : dict_lookup k (dict_set k v d) = Some v.
Proof. now rewrite dict_lookup_set, String.eqb_refl. Qed.

Lemma dict_keys_set k k' v d :
  k' ∈ dict_keys (dict_set k v d) <-> k' = k \/ k' ∈ dict_keys d.
Proof.
  unfold dict_keys. induction d as [|[k0 v0] d IH]; simpl.
  - rewrite list_elem_of_singleton. split; [now left|].
    intros [H|H]; [assumption|now apply elem_of_nil in H].
  - destruct (String.eqb_spec k k0) as [->|Hne]; simpl.
    + rewrite !elem_of_cons. tauto.
    + rewrite !elem_of_cons, IH. tauto.
Qed.

Lemma dict_lookup_keys k d :
  k ∈ dict_keys d <-> exists v, dict_lookup k d = Some v.
Proof.
  unfold dict_keys. induction d as [|[k0 v0] d IH]; simpl.
  - split; [intros H; now apply elem_of_nil in H|now intros [v H]].
  - rewrite elem_of_cons, IH.
    destruct (String.eqb_spec k k0) as [->|Hne]; [|tauto].
    split; [eauto|now left].
Qed.

Lemma dict_set_NoDup k v d :
  NoDup (dict_keys d) -> NoDup (dict_keys (dict_set k v d)).
Proof.
  unfold dict_keys. induction d as [|[k0 v0] d IH]; simpl; intros Hnd.
  - apply NoDup_singleton.
  - apply NoDup_cons in Hnd as [Hk0 Hnd].
    destruct (String.eqb_spec k k0) as [->|Hne]; simpl.
    + now apply NoDup_cons.
    + apply NoDup_cons. split; [|now apply IH].
      intros H. apply (dict_keys_set k k0 v d) in H as [H|H];
        [congruence|contradiction].
Qed.

Lemma dict_set_set k v v' d :
  dict_set k v' (dict_set k v d) = dict_set k v' d.
Proof.
  induction d as [|[k0 v0] d IH]; simpl.
  - now rewrite String.eqb_refl.
  - destruct (String.eqb_spec k k0) as [->|Hne]; simpl.
    + now rewrite String.eqb_refl.
    + rewrite (proj2 (String.eqb_neq k k0) Hne). now rewrite IH.
Qed.
End PyDictFacts.

(** ** [scan_activities_for_metrics] *)

Section ScannerFacts.
Context {F : Type} (float_of_Q : Q -> F).

(** The metric a title carries: the name and the value of the first marker
    in it, as the body of [if isinstance(title, str):] reads them. *)
Definition metric_of (title : json) : option (string * F) :=
  match title with
  | JStr t =>
      match search METRIC_PATTERN t with
      | Some m =>
          match group 1 m, group 2 m with
          | Some name, Some text =>
              match decimal_value text with
              | Some q => Some (name, float_of_Q q)
              | None => None
              end
          | _, _ => None
          end
      | None => None
      end
  | _ => None
  end.

(** The sink after the title of one activity has been looked at. *)
Definition recorded (title : json) (metrics : pydict F) : pydict F :=
  match metric_of title with
  | Some (name, value) => dict_set name value metrics
  | None => metrics
  end.

(** Neither [float] nor a missing group ever raises: the body of the title
    check always goes through. *)
Lemma record_metric_ok (title : json) (metrics : pydict F) :
  record_metric float_of_Q title metrics = Ok (recorded title metrics).
Proof.
  unfold record_metric, recorded, metric_of.
  destruct title as [| | |t| |]; try reflexivity.
  destruct (search METRIC_PATTERN t) as [m|] eqn:E; [|reflexivity].
  apply search_metric_pattern in E as (name & number & -> & _ & Hd & _).
  simpl. unfold py_float.
  destruct (decimal_value_is_decimal number Hd) as [q ->]. reflexivity.
Qed.

(** A title carries no metric exactly when it is no string or the search
    finds no marker in it. *)
Lemma metric_of_None (title : json) :
  metric_of title = None <->
  forall t, title = JStr t -> search METRIC_PATTERN t = None.
Proof.
  unfold metric_of.
  destruct title as [| | |t| |]; try (split; [now intros _ t'|now intros _]).
  destruct (search METRIC_PATTERN t) as [m|] eqn:E.
  - destruct (search_metric_pattern t m E)
      as (name & number & -> & _ & Hd & _).
    simpl. destruct (decimal_value_is_decimal number Hd) as [q ->].
    split; [discriminate|]. intros H. specialize (H t eq_refl). congruence.
  - split; [|now intros _]. intros _ t' [= <-]. assumption.
Qed.

Lemma scan_loop_nil metrics : scan_loop float_of_Q [] metrics = Ok metrics.
Proof. now rewrite scan_loop_equation_1. Qed.

Lemma scan_loop_dict rest activity metrics :
  scan_loop float_of_Q (rest ++ [JDict activity]) metrics
  = scan_loop float_of_Q
      (push_dicts rest (get "childActivities" activity))
      (recorded (get "title" activity) metrics).
Proof.
  rewrite (scan_loop_equation_1 _ (rest ++ [JDict activity])).
  generalize (inspect (pop (rest ++ [JDict activity]))). intros [o e].
  assert (o = Some (rest, JDict activity)) as ->
    by (rewrite <- e; apply pop_app).
  now rewrite scan_loop_clause_1_equation_6, record_metric_ok.
Qed.

Lemma scan_loop_not_dict rest x metrics :
  is_dict x = false ->
  scan_loop float_of_Q (rest ++ [x]) metrics = Raise AttributeError.
Proof.
  intros Hx. rewrite scan_loop_equation_1.
  generalize (inspect (pop (rest ++ [x]))). intros [o e].
  assert (o = Some (rest, x)) as -> by (rewrite <- e; apply pop_app).
  destruct x; try discriminate; now simp scan_loop.
Qed.

Lemma recorded_lookup title metrics n :
  dict_lookup n (recorded title metrics)
  = match metric_of title with
    | Some (name, value) =>
        if String.eqb n name then Some value else dict_lookup n metrics
    | None => dict_lookup n metrics
    end.
Proof.
  unfold recorded. destruct (metric_of title) as [[name value]|];
    [apply dict_lookup_set|reflexivity].
Qed.

(** The loop returns.  Every binding of the sink it returns comes from an
    activity still to be met or, when none of these carries the name, was in
    the sink before; every name bound before and every name of a metric still
    to be met is bound; and nothing changes when no activity still to be met
    carries a metric. *)
Lemma scan_loop_spec (stack : list json) :
  forall metrics,
    Forall (fun j => is_dict j = true) stack ->
    exists metrics',
      scan_loop float_of_Q stack metrics = Ok metrics' /\
      (forall n v, dict_lookup n metrics' = Some v ->
         (exists a, reaches "childActivities" stack a /\
                    metric_of (get "title" a) = Some (n, v)) \/
         (dict_lookup n metrics = Some v /\
          forall a v0, reaches "childActivities" stack a ->
                       metric_of (get "title" a) <> Some (n, v0))) /\
      (forall n, n ∈ dict_keys metrics' <->
         n ∈ dict_keys metrics \/
         exists a v, reaches "childActivities" stack a /\
                     metric_of (get "title" a) = Some (n, v)) /\
      ((forall a, reaches "childActivities" stack a ->
                  metric_of (get "title" a) = None) ->
       metrics' = metrics) /\
      (NoDup (dict_keys metrics) -> NoDup (dict_keys metrics')).
Proof.
  induction stack as [stack IH] using (induction_ltof1 _ stack_size).
  intros metrics Hdict.
  destruct (stack_cases stack) as [->|(rest & x & ->)].
  - exists metrics. rewrite scan_loop_nil.
    split_and!; [reflexivity| | |reflexivity|trivial].
    { intros n v H. right. split; [assumption|].
      intros a v0 Ha. now apply reaches_nil in Ha. }
    intros n. split; [now left|].
    intros [H|(a & v & Ha & _)]; [assumption|]. now apply reaches_nil in Ha.
  - apply Forall_app in Hdict as [Hrest Hx].
    apply Forall_inv in Hx. destruct x as [| | | | |a]; try discriminate.
    destruct (IH (push_dicts rest (get "childActivities" a))
                 (push_dicts_size rest "childActivities" a)
                 (recorded (get "title" a) metrics)
                 (Forall_push_dicts _ _ Hrest))
      as (metrics' & Hrun & Hfrom & Hkeys & Hsame & Hnd).
    exists metrics'. rewrite scan_loop_dict.
    split_and!; [assumption| | | |].
    + intros n v H. apply Hfrom in H as [(b & Hb & Hm)|[H Hnot]].
      * left. exists b. split; [|assumption]. apply reaches_step. now right.
      * rewrite recorded_lookup in H.
        destruct (metric_of (get "title" a)) as [[name value]|] eqn:Hm.
        -- destruct (String.eqb_spec n name) as [->|Hne].
           ++ injection H as ->. left. exists a. split; [|assumption].
              apply reaches_step. now left.
           ++ right. split; [assumption|]. intros b v0 Hb Hm'.
              apply reaches_step in Hb as [->|Hb]; [congruence|].
              now apply (Hnot b v0).
        -- right. split; [assumption|]. intros b v0 Hb Hm'.
           apply reaches_step in Hb as [->|Hb]; [congruence|].
           now apply (Hnot b v0).
    + intros n. rewrite Hkeys. unfold recorded. split.
      * intros [H|(b & v & Hb & Hm)].
        -- destruct (metric_of (get "title" a)) as [[name value]|] eqn:Hm;
             [|now left].
           apply dict_keys_set in H as [->|H]; [|now left].
           right. exists a, value. split; [|assumption].
           apply reaches_step. now left.
        -- right. exists b, v. split; [|assumption].
           apply reaches_step. now right.
      * intros [H|(b & v & Hb & Hm)].
        -- left. destruct (metric_of (get "title" a)) as [[name value]|];
             [|assumption].
           apply dict_keys_set. now right.
        -- apply reaches_step in Hb as [->|Hb].
           ++ left. rewrite Hm. apply dict_keys_set. now left.
           ++ right. now exists b, v.
    + intros Hnone. rewrite Hsame.
      * unfold recorded. rewrite (Hnone a); [reflexivity|].
        apply reaches_step. now left.
      * intros b Hb. apply Hnone. apply reaches_step. now right.
    + intros H. apply Hnd. unfold recorded.
      destruct (metric_of (get "title" a)) as [[name value]|];
        [now apply dict_set_NoDup|assumption].
Qed.
End ScannerFacts.

(** The text from position [n] on. *)
Fixpoint skip (n : nat) (s : string) : string :=
  match n, s with
  | S n', String _ s' => skip n' s'
  | _, _ => s
  end.

Lemma skip_append (before s : string) :
  skip (String.length before) (before ++ s) = s.
Proof.
  induction before as [|c before IH]; simpl_append; [now destruct s|].
  exact IH.
Qed.

(** The search returns the match at position [n] when no position before
    [n] has a match. *)
Lemma search_at (r : regex) (n : nat) :
  forall s m,
    (forall i, i < n -> match_here r (skip i s) = None) ->
    match_here r (skip n s) = Some m ->
    search r s = Some m.
Proof.
  induction n as [|n IH]; intros s m Hbefore Hat.
  - destruct s; simpl in *; now rewrite Hat.
  - pose proof (Hbefore 0 ltac:(lia)) as H0.
    destruct s as [|c s]; simpl in *; [congruence|].
    rewrite H0. apply IH; [|assumption].
    intros i Hi. apply (Hbefore (S i)). lia.
Qed.

(** A position with a match makes the search succeed. *)
Lemma search_some (r : regex) (n : nat) :
  forall s m, match_here r (skip n s) = Some m ->
              exists m', search r s = Some m'.
Proof.
  induction n as [|n IH]; intros s m Hat.
  - exists m. destruct s; simpl in *; now rewrite Hat.
  - destruct s as [|c s]; simpl in *.
    + exists m. now rewrite Hat.
    + destruct (match_here r (String c s)) as [m'|]; [now exists m'|].
      now apply (IH s m).
Qed.

(** An activity with a title, and one with a title and child activities. *)
Definition activity (title : string) : json := JDict [("title", JStr title)].

Definition activity_with (title : string) (children : list json) : json :=
  JDict [("title", JStr title); ("childActivities", JList children)].

(** The activities of the repository's own test. *)
Definition sample_activities : list json :=
  [activity "something else";
   activity_with "Latency metric startup_to_tabbar=4.821s"
     [activity "Latency metric reopen_to_tabbar=1.102s"]].

(** The two markers under a parent with an unrelated title. *)
Definition nested_activities : list json :=
  [activity_with "Run UI latency test"
     [activity_with "Latency metric startup_to_tabbar=4.821s"
        [activity "Latency metric reopen_to_tabbar=1.102s"]]].

Section ScannerClaims.
Context {F : Type} (float_of_Q : Q -> F).

#[local] Abbreviation scan := (scan_activities_for_metrics float_of_Q).

Lemma scan_one (title : string) (metrics : pydict F) :
  scan [activity title] metrics = Ok (recorded float_of_Q (JStr title) metrics).
Proof.
  unfold scan_activities_for_metrics, activity.
  change [JDict [("title", JStr title)]]
    with ([] ++ [JDict [("title", JStr title)]]).
  rewrite scan_loop_dict. simpl. now rewrite scan_loop_nil.
Qed.

(** C3: whatever the shared mapping holds, scanning an activity titled
    "Latency metric x=1.0s" into it and then one titled
    "Latency metric x=2.0s" leaves [x] bound to 2.0: the mapping is the one a
    single write of 2.0 gives, so the first value is neither kept nor mixed
    in.  The same holds within one scan when the second activity is a child
    of the first. *)
Theorem scan_duplicate_last_wins (metrics : pydict F) :
  (exists m1 m2,
     scan [activity "Latency metric x=1.0s"] metrics = Ok m1 /\
     scan [activity "Latency metric x=2.0s"] m1 = Ok m2 /\
     dict_lookup "x" m1 = Some (float_of_Q 1) /\
     dict_lookup "x" m2 = Some (float_of_Q 2) /\
     m2 = dict_set "x" (float_of_Q 2) metrics) /\
  (exists m,
     scan [activity_with "Latency metric x=1.0s"
             [activity "Latency metric x=2.0s"]] metrics = Ok m /\
     dict_lookup "x" m = Some (float_of_Q 2) /\
     m = dict_set "x" (float_of_Q 2) metrics).
Proof.
  assert (H1 : forall m, recorded float_of_Q (JStr "Latency metric x=1.0s") m
                         = dict_set "x" (float_of_Q 1) m) by reflexivity.
  assert (H2 : forall m, recorded float_of_Q (JStr "Latency metric x=2.0s") m
                         = dict_set "x" (float_of_Q 2) m) by reflexivity.
  split.
  - exists (dict_set "x" (float_of_Q 1) metrics),
           (dict_set "x" (float_of_Q 2) metrics).
    rewrite !scan_one, H1, H2, dict_set_set, !dict_lookup_set_eq.
    now split_and!.
  - exists (dict_set "x" (float_of_Q 2) metrics).
    split_and!; [|apply dict_lookup_set_eq|reflexivity].
    unfold scan_activities_for_metrics, activity_with, activity.
    match goal with
    | |- scan_loop _ [?a] _ = _ => change [a] with ([] ++ [a])
    end.
    rewrite scan_loop_dict.
    change (get "title" _) with (JStr "Latency metric x=1.0s") at 1.
    rewrite H1. simpl push_dicts.
    match goal with
    | |- scan_loop _ [?a] _ = _ => change [a] with ([] ++ [a])
    end.
    rewrite scan_loop_dict.
    change (get "title" _) with (JStr "Latency metric x=2.0s") at 1.
    rewrite H2, dict_set_set. simpl push_dicts. now rewrite scan_loop_nil.
Qed.

(** C5: the scan of the activities of the repository's test, and of the same
    two markers under a parent with an unrelated title, leaves
    "startup_to_tabbar" bound to 4.821 and "reopen_to_tabbar" to 1.102; and
    on every forest of activities, whatever the depth at which an activity
    sits, the name of the metric its title carries is bound in the sink
    afterwards, to a value some activity of the forest carries under that
    name. *)
Theorem scan_extracts_nested_markers :
  scan sample_activities []
  = Ok [("startup_to_tabbar", float_of_Q (Qred 4.821));
        ("reopen_to_tabbar", float_of_Q (Qred 1.102))] /\
  scan nested_activities []
  = Ok [("startup_to_tabbar", float_of_Q (Qred 4.821));
        ("reopen_to_tabbar", float_of_Q (Qred 1.102))] /\
  forall activities metrics,
    Forall (fun j => is_dict j = true) activities ->
    exists metrics',
      scan activities metrics = Ok metrics' /\
      forall a n v,
        reaches "childActivities" activities a ->
        metric_of float_of_Q (get "title" a) = Some (n, v) ->
        exists v' b,
          dict_lookup n metrics' = Some v' /\
          reaches "childActivities" activities b /\
          metric_of float_of_Q (get "title" b) = Some (n, v').
Proof.
  split_and!; [vm_compute; reflexivity|vm_compute; reflexivity|].
  intros activities metrics Hdict.
  destruct (scan_loop_spec float_of_Q activities metrics Hdict)
    as (metrics' & Hrun & Hfrom & Hkeys & _ & _).
  exists metrics'. split; [assumption|]. intros a n v Ha Hm.
  assert (Hin : n ∈ dict_keys metrics') by (apply Hkeys; right; eauto).
  apply dict_lookup_keys in Hin as [v' Hv'].
  destruct (Hfrom n v' Hv') as [(b & Hb & Hmb)|[_ Hnot]].
  - now exists v', b.
  - now destruct (Hnot a v Ha).
Qed.

(** C8: on every forest of activities the scan returns without raising.  It
    leaves the sink as it was when no activity of the forest has a string
    title with a marker in it; an activity whose title is no string or has no
    marker is passed over; and an activity without a [childActivities] list
    is a leaf. *)
Theorem scan_total (activities : list json) (metrics : pydict F) :
  Forall (fun j => is_dict j = true) activities ->
  (exists metrics',
     scan activities metrics = Ok metrics' /\
     ((forall a t, reaches "childActivities" activities a ->
                   get "title" a = JStr t ->
                   search METRIC_PATTERN t = None) ->
      metrics' = metrics)) /\
  (forall rest a sink,
     (forall t, get "title" a = JStr t -> search METRIC_PATTERN t = None) ->
     scan_loop float_of_Q (rest ++ [JDict a]) sink
     = scan_loop float_of_Q (push_dicts rest (get "childActivities" a)) sink) /\
  (forall rest a sink,
     (forall l, get "childActivities" a <> JList l) ->
     scan_loop float_of_Q (rest ++ [JDict a]) sink
     = scan_loop float_of_Q rest (recorded float_of_Q (get "title" a) sink)).
Proof.
  intros Hdict. split_and!.
  - destruct (scan_loop_spec float_of_Q activities metrics Hdict)
      as (metrics' & Hrun & _ & _ & Hsame & _).
    exists metrics'. split; [assumption|]. intros Hnone. apply Hsame.
    intros a Ha. apply metric_of_None. intros t Ht. now apply (Hnone a t).
  - intros rest a sink Hnone. rewrite scan_loop_dict. unfold recorded.
    now rewrite (proj2 (metric_of_None float_of_Q (get "title" a)) Hnone).
  - intros rest a sink Hleaf. rewrite scan_loop_dict. unfold push_dicts.
    destruct (get "childActivities" a) as [| | | |l|]; try reflexivity.
    now destruct (Hleaf l).
Qed.

(** C10: the marker is looked for anywhere in the title.  The title
    "prefix Latency metric x=1.0s suffix" yields the pair of [x] and 1.0, and
    the scan of an activity with that title leaves [x] bound to 1.0 in the
    sink; a title with two markers yields the first one only: its scan binds
    the name of the first and leaves the name of the second as it was; every
    title that holds a marker yields a pair; and the pair is that of the
    marker at the first position with a match, whatever comes after it,
    further markers included: the scan of an activity with such a title is
    one write into the sink, which binds that name to that number and leaves
    every other name as it was. *)
Theorem marker_found_anywhere_first_only :
  search METRIC_PATTERN "prefix Latency metric x=1.0s suffix"
  = Some [(2, "1.0"); (1, "x")] /\
  scan [activity "prefix Latency metric x=1.0s suffix"] []
  = Ok [("x", float_of_Q 1)] /\
  (forall metrics,
   exists sink,
     scan [activity "prefix Latency metric x=1.0s suffix"] metrics = Ok sink /\
     sink = dict_set "x" (float_of_Q 1) metrics /\
     dict_lookup "x" sink = Some (float_of_Q 1)) /\
  scan [activity "Latency metric a=1s then Latency metric b=2.5s"] []
  = Ok [("a", float_of_Q 1)] /\
  (forall metrics,
   exists sink,
     scan [activity "Latency metric a=1s then Latency metric b=2.5s"] metrics
     = Ok sink /\
     sink = dict_set "a" (float_of_Q 1) metrics /\
     dict_lookup "a" sink = Some (float_of_Q 1) /\
     dict_lookup "b" sink = dict_lookup "b" metrics) /\
  (forall before name number rest,
     is_name name -> is_decimal number ->
     exists m,
       search METRIC_PATTERN (before ++ marker name number ++ rest) = Some m) /\
  (forall before name number rest,
     is_name name -> is_decimal number ->
     (forall i, i < String.length before ->
        match_here METRIC_PATTERN
          (skip i (before ++ marker name number ++ rest)) = None) ->
     search METRIC_PATTERN (before ++ marker name number ++ rest)
     = Some [(2, number); (1, name)] /\
     exists q,
       decimal_value number = Some q /\
       forall metrics,
       exists sink,
         scan [activity (before ++ marker name number ++ rest)] metrics
         = Ok sink /\
         sink = dict_set name (float_of_Q q) metrics /\
         dict_lookup name sink = Some (float_of_Q q) /\
         forall n, n <> name -> dict_lookup n sink = dict_lookup n metrics).
Proof.
  split_and!.
  - vm_compute. reflexivity.
  - now rewrite scan_one.
  - intros metrics. exists (dict_set "x" (float_of_Q 1) metrics).
    split_and!; [now rewrite scan_one|reflexivity|apply dict_lookup_set_eq].
  - now rewrite scan_one.
  - intros metrics. exists (dict_set "a" (float_of_Q 1) metrics).
    split_and!;
      [now rewrite scan_one|reflexivity|apply dict_lookup_set_eq|].
    now rewrite dict_lookup_set.
  - intros before name number rest Hn Hd.
    apply (search_some _ (String.length before) _ [(2, number); (1, name)]).
    rewrite skip_append. now apply match_here_marker.
  - intros before name number rest Hn Hd Hbefore.
    assert (Hs : search METRIC_PATTERN (before ++ marker name number ++ rest)
                 = Some [(2, number); (1, name)]).
    { apply (search_at _ (String.length before)); [assumption|].
      rewrite skip_append. now apply match_here_marker. }
    split; [assumption|].
    destruct (decimal_value_is_decimal number Hd) as [q Hq].
    exists q. split; [assumption|]. intros metrics.
    exists (dict_set name (float_of_Q q) metrics). split_and!.
    + rewrite scan_one. unfold recorded, metric_of. rewrite Hs. simpl.
      now rewrite Hq.
    + reflexivity.
    + apply dict_lookup_set_eq.
    + intros n Hne. rewrite dict_lookup_set.
      now rewrite (proj2 (String.eqb_neq n name) Hne).
Qed.
End ScannerClaims.

(** The floats of the examples: the exact value stands for its nearest
    float. *)
Definition exact_float (q : Q) : Q := q.

Lemma scan_total_witness :
  Forall (fun j => is_dict j = true) sample_activities /\
  exists metrics',
    scan_activities_for_metrics exact_float sample_activities [] = Ok metrics'.
Proof.
  assert (H : Forall (fun j => is_dict j = true) sample_activities)
    by (repeat constructor).
  split; [exact H|].
  destruct (proj1 (scan_total exact_float sample_activities [] H))
    as (metrics' & Hrun & _).
  now exists metrics'.
Defined.


Lemma scan_extracts_nested_markers_witness :
  Forall (fun j => is_dict j = true) nested_activities /\
  exists metrics',
    scan_activities_for_metrics exact_float nested_activities [] = Ok metrics' /\
    exists v, dict_lookup "reopen_to_tabbar" metrics' = Some v.
Proof.
  assert (H : Forall (fun j => is_dict j = true) nested_activities)
    by (repeat constructor).
  split; [exact H|].
  destruct (proj2 (proj2 (scan_extracts_nested_markers exact_float))
              nested_activities [] H) as (metrics' & Hrun & _).
  exists metrics'. split; [exact Hrun|].
  vm_compute in Hrun. injection Hrun as <-. now eexists.
Defined.

Lemma marker_found_anywhere_first_only_witness :
  (is_name "x" /\ is_decimal "1.0" /\
   forall i, i < String.length "prefix " ->
     match_here METRIC_PATTERN
       (skip i ("prefix " ++ marker "x" "1.0" ++ " suffix")) = None) /\
  search METRIC_PATTERN ("prefix " ++ marker "x" "1.0" ++ " suffix")
  = Some [(2, "1.0"); (1, "x")] /\
  scan_activities_for_metrics exact_float
    [activity ("prefix " ++ marker "x" "1.0" ++ " suffix")] []
  = Ok [("x", 1%Q)].
Proof.
  assert (Hn : is_name "x") by (split; [discriminate|reflexivity]).
  assert (Hd : is_decimal "1.0").
  { right. exists "1", "0". now split_and!. }
  assert (Hb : forall i, i < String.length "prefix " ->
             match_here METRIC_PATTERN
               (skip i ("prefix " ++ marker "x" "1.0" ++ " suffix")) = None).
  { intros i Hi.
    do 7 (destruct i as [|i]; [vm_compute; reflexivity|]).
    simpl in Hi. lia. }
  split; [now split_and!|].
  destruct (proj2 (proj2 (proj2 (proj2 (proj2 (proj2
              (marker_found_anywhere_first_only exact_float))))))
              "prefix " "x" "1.0" " suffix" Hn Hd Hb)
    as (Hs & q & Hq & Hscan).
  split; [exact Hs|].
  vm_compute in Hq. injection Hq as <-.
  destruct (Hscan []) as (sink & Hrun & -> & _). exact Hrun.
Defined.

(** ** Sorting the items of a dict *)

Section SortedFacts.
Context {V : Type}.
Implicit Types (l : list (string * V)) (kv : string * V).

Lemma insert_item_keys kv l :
  map fst (insert_item kv l) ≡ₚ fst kv :: map fst l.
Proof.
  induction l as [|kv' l IH]; simpl; [reflexivity|].
  destruct (String.leb (fst kv) (fst kv')); simpl; [reflexivity|].
  rewrite IH. apply Permutation_swap.
Qed.

Lemma sorted_keys l : map fst (sorted l) ≡ₚ map fst l.
Proof.
  induction l as [|kv l IH]; simpl; [reflexivity|].
  now rewrite insert_item_keys, IH.
Qed.

Lemma insert_item_sorted kv l :
  StronglySorted String.le (map fst l) ->
  StronglySorted String.le (map fst (insert_item kv l)).
Proof.
  induction l as [|kv' l IH]; simpl; intros Hs.
  - repeat constructor.
  - apply StronglySorted_inv in Hs as [Hs Hall].
    destruct (String.leb (fst kv) (fst kv')) eqn:Hle; simpl.
    + constructor; [now constructor|].
      assert (Hkv : String.le (fst kv) (fst kv'))
        by (unfold String.le; now rewrite Hle).
      constructor; [assumption|].
      eapply Forall_impl; [exact Hall|].
      intros k Hk. now transitivity (fst kv').
    + constructor; [now apply IH|].
      rewrite insert_item_keys. constructor; [|assumption].
      destruct (total String.le (fst kv) (fst kv')) as [H|H]; [|assumption].
      unfold String.le in H. now rewrite Hle in H.
Qed.

Lemma sorted_sorted l : StronglySorted String.le (map fst (sorted l)).
Proof.
  induction l as [|kv l IH]; simpl; [constructor|].
  now apply insert_item_sorted.
Qed.

Lemma dict_set_fresh k (v : V) d :
  k ∉ dict_keys d -> dict_set k v d = d ++ [(k, v)].
Proof.
  unfold dict_keys. induction d as [|[k0 v0] d IH]; simpl; [reflexivity|].
  intros Hk. apply not_elem_of_cons in Hk as [Hne Hk].
  rewrite (proj2 (String.eqb_neq k k0) Hne). now rewrite IH.
Qed.

(** [dict(items)] keeps a list of items with distinct keys as it is. *)
Lemma dict_of_items_NoDup l : NoDup (map fst l) -> dict_of_items l = l.
Proof.
  unfold dict_of_items.
  assert (H : forall acc, NoDup (map fst (acc ++ l)) ->
            fold_left (fun d kv => dict_set (fst kv) (snd kv) d) l acc
            = acc ++ l).
  { induction l as [|[k v] l IH]; intros acc Hnd; simpl.
    - now rewrite app_nil_r.
    - rewrite dict_set_fresh.
      + rewrite IH; rewrite <- app_assoc; [reflexivity|assumption].
      + rewrite map_app in Hnd. apply NoDup_app in Hnd as (_ & Hdis & _).
        intros Hin. apply (Hdis k Hin). simpl. now left. }
  intros Hnd. now apply (H []).
Qed.
End SortedFacts.

(** ** [extract_metrics] *)

Lemma bind_Ok {A B : Type} (c : result A) (k : A -> result B) (b : B) :
  bind c k = Ok b -> exists a, c = Ok a /\ k a = Ok b.
Proof. destruct c as [a|e]; simpl; [eauto|discriminate]. Qed.

Section OrchestratorFacts.
Context {F : Type} (float_of_Q : Q -> F).
Context (run_json_command : list string -> result json).

#[local] Abbreviation keys_distinct := (fun m : pydict F => NoDup (dict_keys m)).

(** No step of the run binds a name twice. *)
Lemma scan_loop_NoDup (stack : list json) :
  forall metrics metrics',
    scan_loop float_of_Q stack metrics = Ok metrics' ->
    keys_distinct metrics -> keys_distinct metrics'.
Proof.
  induction stack as [stack IH] using (induction_ltof1 _ stack_size).
  intros metrics metrics' Hrun Hnd.
  destruct (stack_cases stack) as [->|(rest & x & ->)].
  - rewrite scan_loop_nil in Hrun. now injection Hrun as <-.
  - destruct x as [| | | | |a];
      try (rewrite scan_loop_not_dict in Hrun by reflexivity; discriminate).
    rewrite scan_loop_dict in Hrun.
    apply (IH _ (push_dicts_size rest "childActivities" a) _ _ Hrun).
    unfold recorded. destruct (metric_of float_of_Q (get "title" a)) as [[n v]|];
      [now apply dict_set_NoDup|assumption].
Qed.

Lemma scan_runs_NoDup (test_runs : list json) :
  forall metrics metrics',
    scan_runs float_of_Q test_runs metrics = Ok metrics' ->
    keys_distinct metrics -> keys_distinct metrics'.
Proof.
  induction test_runs as [|run runs IH]; intros metrics metrics'; simpl.
  - now intros [= <-].
  - destruct run as [| | | | |run]; try apply IH.
    destruct (get "activities" run) as [| | | |activities|]; try apply IH.
    intros H Hnd. apply bind_Ok in H as (m1 & H1 & H).
    apply (IH _ _ H). now apply (scan_loop_NoDup activities metrics).
Qed.

Lemma scan_test_NoDup path id st st' :
  scan_test float_of_Q run_json_command path id st = Ok st' ->
  keys_distinct st.1 -> keys_distinct st'.1.
Proof.
  unfold scan_test.
  destruct (run_json_command (activities_command path id)) as [payload|e].
  - intros H Hnd. apply bind_Ok in H as (test_runs & _ & H).
    destruct test_runs as [| | | |test_runs|];
      try (now injection H as <-).
    apply bind_Ok in H as (m1 & H1 & [= <-]). simpl.
    now apply (scan_runs_NoDup test_runs st.1).
  - destruct e; try discriminate. now intros [= <-].
Qed.

Lemma scan_tests_NoDup path test_ids :
  forall st st',
    scan_tests float_of_Q run_json_command path test_ids st = Ok st' ->
    keys_distinct st.1 -> keys_distinct st'.1.
Proof.
  induction test_ids as [|id ids IH]; intros st st'; simpl.
  - now intros [= <-].
  - intros H Hnd. apply bind_Ok in H as (st1 & H1 & H).
    apply (IH _ _ H). now apply (scan_test_NoDup path id st).
Qed.

(** The pieces of a report [extract_metrics] returned. *)
Lemma extract_metrics_Ok path r :
  extract_metrics float_of_Q run_json_command path = Ok r ->
  exists payload test_nodes test_ids st,
    run_json_command (tests_command path) = Ok (JDict payload) /\
    get "testNodes" payload = JList test_nodes /\
    collect_test_ids test_nodes = Ok test_ids /\
    scan_tests float_of_Q run_json_command path test_ids ([], []) = Ok st /\
    r = Report path (List.length test_ids) (List.length st.1)
               (dict_of_items (sorted st.1)) st.2.
Proof.
  unfold extract_metrics. intros H.
  apply bind_Ok in H as (tests_payload & Hq & H).
  apply bind_Ok in H as (test_nodes & Hget & H).
  destruct tests_payload as [| | | | |payload]; try discriminate.
  injection Hget as <-.
  destruct (get "testNodes" payload) as [| | | |nodes|] eqn:Hnodes;
    try discriminate.
  apply bind_Ok in H as (test_ids & Hids & H).
  apply bind_Ok in H as (st & Hst & [= <-]).
  now exists payload, nodes, test_ids, st.
Qed.

(** C7: in every report [extract_metrics] returns the keys of [metrics] are
    in ascending lexicographic order, and no key comes twice; the keys are
    those the scans found, in whatever order they found them. *)
Theorem report_metrics_sorted (path : string) (r : report F) :
  extract_metrics float_of_Q run_json_command path = Ok r ->
  StronglySorted String.le (dict_keys (metrics r)) /\
  NoDup (dict_keys (metrics r)) /\
  exists test_ids found,
    tests_scanned r = List.length test_ids /\
    scan_tests float_of_Q run_json_command path test_ids ([], []) = Ok found /\
    dict_keys (metrics r) ≡ₚ dict_keys found.1.
Proof.
  intros H.
  apply extract_metrics_Ok
    in H as (payload & nodes & test_ids & st & Hq & Hn & Hids & Hst & ->).
  simpl.
  assert (Hnd : NoDup (dict_keys st.1)).
  { apply (scan_tests_NoDup path test_ids _ _ Hst). constructor. }
  assert (Hnd' : NoDup (map fst (sorted st.1))).
  { now rewrite sorted_keys. }
  rewrite (dict_of_items_NoDup _ Hnd'). unfold dict_keys.
  split_and!; [apply sorted_sorted|assumption|].
  exists test_ids, st. split_and!; [reflexivity|assumption|apply sorted_keys].
Qed.

(** *** A failed activities query *)

(** A run whose [activities], when a list, holds objects only. *)
Definition run_ok (run : json) : bool :=
  match run with
  | JDict run =>
      match get "activities" run with
      | JList activities => forallb is_dict activities
      | _ => true
      end
  | _ => true
  end.

(** An answer to the activities query: the tool failed with an exit status,
    or it printed an object whose runs are [run_ok]. *)
Definition answer_ok (answer : result json) : bool :=
  match answer with
  | Raise (CalledProcessError _) => true
  | Ok (JDict payload) =>
      match get "testRuns" payload with
      | JList test_runs => forallb run_ok test_runs
      | _ => true
      end
  | _ => false
  end.

Definition succeeded (answer : result json) : bool :=
  match answer with Ok _ => true | Raise _ => false end.

(** The entries of [errors] the identifiers stand for: one for each whose
    query failed, with the exit status in its text. *)
Definition failure_entries (path : string) (test_ids : list string) :
    list extraction_error :=
  flat_map
    (fun id =>
       match run_json_command (activities_command path id) with
       | Raise (CalledProcessError returncode) =>
           [ExtractionError id
              ("xcresulttool activities failed with exit code "
               ++ string_of_Z returncode)]
       | _ => []
       end)
    test_ids.

(** Some activity of some run of the answer carries a metric named [n]. *)
Definition carries (answer : result json) (n : string) : Prop :=
  exists payload test_runs run activities a v,
    answer = Ok (JDict payload) /\
    get "testRuns" payload = JList test_runs /\
    JDict run ∈ test_runs /\
    get "activities" run = JList activities /\
    reaches "childActivities" activities a /\
    metric_of float_of_Q (get "title" a) = Some (n, v).

(** The [activities] list of a run that has one. *)
Definition run_activities (run : json) : option (list json) :=
  match run with
  | JDict run =>
      match get "activities" run with
      | JList activities => Some activities
      | _ => None
      end
  | _ => None
  end.

Lemma scan_runs_cons run runs metrics :
  scan_runs float_of_Q (run :: runs) metrics
  = match run_activities run with
    | Some activities =>
        try metrics' <-
          scan_activities_for_metrics float_of_Q activities metrics in
        scan_runs float_of_Q runs metrics'
    | None => scan_runs float_of_Q runs metrics
    end.
Proof.
  destruct run as [| | | | |r]; try reflexivity.
  simpl. now destruct (get "activities" r).
Qed.

Lemma run_activities_Some run activities :
  get "activities" run = JList activities ->
  run_activities (JDict run) = Some activities.
Proof. intros H. simpl. now rewrite H. Qed.

Lemma run_ok_activities run activities :
  run_ok run = true -> run_activities run = Some activities ->
  Forall (fun j => is_dict j = true) activities.
Proof.
  destruct run as [| | | | |r]; try discriminate. simpl.
  destruct (get "activities" r) as [| | | |l|]; try discriminate.
  intros Hok [= <-]. apply Forall_forall. intros x Hx.
  rewrite forallb_forall in Hok. apply Hok. now apply list_elem_of_In.
Qed.

(** The runs of a good answer are scanned without raising; no name is
    lost, and every metric of every run is bound afterwards. *)
Lemma scan_runs_spec (test_runs : list json) :
  forall metrics,
    forallb run_ok test_runs = true ->
    exists metrics',
      scan_runs float_of_Q test_runs metrics = Ok metrics' /\
      (forall n, n ∈ dict_keys metrics -> n ∈ dict_keys metrics') /\
      (forall run activities a n v,
         JDict run ∈ test_runs ->
         get "activities" run = JList activities ->
         reaches "childActivities" activities a ->
         metric_of float_of_Q (get "title" a) = Some (n, v) ->
         n ∈ dict_keys metrics').
Proof.
  induction test_runs as [|run runs IH]; intros metrics Hok.
  - exists metrics. split_and!; [reflexivity|trivial|].
    intros run activities a n v Hin. now apply elem_of_nil in Hin.
  - simpl in Hok. apply andb_prop in Hok as [Hrun Hruns].
    rewrite scan_runs_cons.
    destruct (run_activities run) as [activities|] eqn:Hacts.
    + pose proof (run_ok_activities run activities Hrun Hacts) as Hdict.
      destruct (scan_loop_spec float_of_Q activities metrics Hdict)
        as (m1 & Hm1 & _ & Hkeys & _ & _).
      destruct (IH m1 Hruns) as (m' & Hm' & Hkeep & Hall).
      exists m'. unfold scan_activities_for_metrics. rewrite Hm1.
      split_and!; [assumption| |].
      * intros n Hn. apply Hkeep. apply Hkeys. now left.
      * intros r acts a n v Hin Hget Ha Hm.
        apply elem_of_cons in Hin as [<-|Hin];
          [|now apply (Hall r acts a n v)].
        rewrite (run_activities_Some r acts Hget) in Hacts.
        injection Hacts as <-.
        apply Hkeep. apply Hkeys. right. now exists a, v.
    + destruct (IH metrics Hruns) as (m' & Hm' & Hkeep & Hall).
      exists m'. split_and!; [assumption|assumption|].
      intros r acts a n v Hin Hget.
      apply elem_of_cons in Hin as [<-|Hin];
        [|now apply (Hall r acts a n v)].
      rewrite (run_activities_Some r acts Hget) in Hacts. discriminate.
Qed.

(** One turn of the loop over the identifiers, on a good answer: a failed
    query adds its entry to the errors and leaves the metrics alone; an
    answered one leaves the errors alone, loses no name and binds every
    metric the answer carries. *)
Lemma scan_test_spec (path id : string) (metrics : pydict F) :
  answer_ok (run_json_command (activities_command path id)) = true ->
  exists metrics',
    (forall errs,
       scan_test float_of_Q run_json_command path id (metrics, errs)
       = Ok (metrics', errs ++ failure_entries path [id])) /\
    (succeeded (run_json_command (activities_command path id)) = false ->
     metrics' = metrics) /\
    (forall n, n ∈ dict_keys metrics -> n ∈ dict_keys metrics') /\
    (forall n, carries (run_json_command (activities_command path id)) n ->
               n ∈ dict_keys metrics').
Proof.
  unfold scan_test, failure_entries, carries. simpl.
  destruct (run_json_command (activities_command path id)) as [payload|e].
  - destruct payload as [| | | | |payload]; try discriminate. simpl.
    destruct (get "testRuns" payload) as [| | | |test_runs|] eqn:Hruns.
    all: try (intros _; exists metrics;
              split_and!;
              [intros errs; now rewrite app_nil_r|reflexivity|trivial|];
              intros n (p & rs & r & acts & a & v & [= <-] & Hrs & _);
              rewrite Hruns in Hrs; discriminate Hrs).
    intros Hok.
    destruct (scan_runs_spec test_runs metrics Hok)
      as (m' & Hm' & Hkeep & Hall).
    exists m'. split_and!; [|discriminate|assumption|].
    + intros errs. rewrite Hm'. simpl. now rewrite app_nil_r.
    + intros n (p & rs & r & acts & a & v & [= <-] & Hrs & Hin & Hget & Ha & Hm).
      rewrite Hruns in Hrs. injection Hrs as <-.
      now apply (Hall r acts a n v).
  - destruct e as [returncode| | | | | |]; try discriminate. intros _.
    exists metrics. split_and!; [|reflexivity|trivial|].
    + intros errs. now rewrite app_nil_r.
    + intros n (p & rs & r & acts & a & v & H & _). discriminate H.
Qed.

(** The whole loop over the identifiers, on good answers: it returns; the
    errors are the entries of the failed queries, in order; the metrics are
    those a run over the answered identifiers alone gives; and they bind
    every metric an answer carries. *)
Lemma scan_tests_spec (path : string) (test_ids : list string) :
  forall metrics,
    (forall id, id ∈ test_ids ->
       answer_ok (run_json_command (activities_command path id)) = true) ->
    exists metrics',
      (forall errs,
         scan_tests float_of_Q run_json_command path test_ids (metrics, errs)
         = Ok (metrics', errs ++ failure_entries path test_ids)) /\
      (forall errs,
         scan_tests float_of_Q run_json_command path
           (List.filter
              (fun id => succeeded (run_json_command (activities_command path id)))
              test_ids)
           (metrics, errs)
         = Ok (metrics', errs)) /\
      (forall n, n ∈ dict_keys metrics -> n ∈ dict_keys metrics') /\
      (forall id n,
         id ∈ test_ids ->
         carries (run_json_command (activities_command path id)) n ->
         n ∈ dict_keys metrics').
Proof.
  induction test_ids as [|id ids IH]; intros metrics Hok.
  - exists metrics. split_and!; try reflexivity; [|trivial|].
    + intros errs. simpl. now rewrite app_nil_r.
    + intros id n Hin. now apply elem_of_nil in Hin.
  - destruct (scan_test_spec path id metrics (Hok id ltac:(now left)))
      as (m1 & Hstep & Hfail & Hkeep1 & Hcar1).
    destruct (IH m1 (fun id' H => Hok id' ltac:(now right)))
      as (m' & Hrun & Hfilter & Hkeep & Hcar).
    exists m'. split_and!.
    + intros errs. simpl. rewrite Hstep. simpl. rewrite Hrun.
      unfold failure_entries. simpl. now rewrite app_nil_r, <- app_assoc.
    + intros errs. simpl.
      destruct (succeeded (run_json_command (activities_command path id)))
        eqn:Hs.
      * assert (Hnil : failure_entries path [id] = []).
        { unfold failure_entries. simpl.
          now destruct (run_json_command (activities_command path id)). }
        specialize (Hstep errs). rewrite Hnil, app_nil_r in Hstep.
        simpl. rewrite Hstep. apply Hfilter.
      * rewrite <- (Hfail eq_refl). apply Hfilter.
    + intros n Hn. apply Hkeep. now apply Hkeep1.
    + intros id' n Hin Hc. apply elem_of_cons in Hin as [->|Hin].
      * apply Hkeep. now apply Hcar1.
      * now apply (Hcar id' n).
Qed.

(** [collect_test_ids] never returns an identifier twice. *)
Lemma collect_loop_NoDup (stack : list json) :
  forall st ids,
    collect_loop stack st = Ok ids -> collect_inv st -> NoDup ids.
Proof.
  induction stack as [stack IH] using (induction_ltof1 _ stack_size).
  intros st ids Hrun Hinv.
  destruct (stack_cases stack) as [->|(rest & x & ->)].
  - rewrite collect_loop_nil in Hrun. injection Hrun as <-. apply Hinv.
  - destruct x as [| | | | |node];
      try (rewrite collect_loop_not_dict in Hrun by reflexivity; discriminate).
    rewrite collect_loop_dict in Hrun.
    apply (IH _ (push_dicts_size rest "children" node) _ _ Hrun).
    now apply record_test_id_spec.
Qed.

(** The text [f"{n}"] of an integer reads back as that integer. *)
Lemma int_of_text_string_of_Z (n : Z) : int_of_text (string_of_Z n) = Some n.
Proof.
  unfold int_of_text, string_of_Z. rewrite NilZero.isi.
  - simpl. now rewrite DecimalZ.of_to.
  - destruct n; simpl; try discriminate.
    intros [= H]. now apply Unsigned.to_uint_nonnil in H.
  - destruct n; simpl; try discriminate.
    intros [= H]. now apply Unsigned.to_uint_nonnil in H.
Qed.

Lemma failure_entries_cons path id ids :
  failure_entries path (id :: ids)
  = failure_entries path [id] ++ failure_entries path ids.
Proof. unfold failure_entries. simpl. now rewrite app_nil_r. Qed.

Lemma failure_entries_one path id :
  failure_entries path [id] = [] \/
  exists returncode,
    run_json_command (activities_command path id)
    = Raise (CalledProcessError returncode) /\
    failure_entries path [id]
    = [ExtractionError id
         ("xcresulttool activities failed with exit code "
          ++ string_of_Z returncode)].
Proof.
  unfold failure_entries. simpl.
  destruct (run_json_command (activities_command path id)) as [p|e];
    [now left|].
  destruct e; try (now left). right. now eexists.
Qed.

Lemma failure_entries_sublist path ids :
  map test_id (failure_entries path ids) `sublist_of` ids.
Proof.
  induction ids as [|id ids IH]; [reflexivity|].
  rewrite failure_entries_cons, map_app.
  destruct (failure_entries_one path id) as [->|(rc & _ & ->)]; simpl.
  - now apply sublist_cons.
  - now apply sublist_skip.
Qed.

(** The entries are those of the identifiers whose query failed with an exit
    status, each with that status in its text. *)
Lemma failure_entries_elem path ids entry :
  entry ∈ failure_entries path ids <->
  exists id status,
    id ∈ ids /\
    run_json_command (activities_command path id)
    = Raise (CalledProcessError status) /\
    entry = ExtractionError id
              ("xcresulttool activities failed with exit code "
               ++ string_of_Z status).
Proof.
  induction ids as [|id ids IH].
  - split; [intros H; now apply elem_of_nil in H|].
    intros (id & status & H & _). now apply elem_of_nil in H.
  - rewrite failure_entries_cons, elem_of_app, IH. split.
    + intros [H|(id' & status & Hin & Ha & ->)].
      * destruct (failure_entries_one path id) as [Hnil|(rc & Ha & Hone)].
        -- rewrite Hnil in H. now apply elem_of_nil in H.
        -- rewrite Hone in H. apply list_elem_of_singleton in H. subst.
           exists id, rc. split_and!; [now left|assumption|reflexivity].
      * exists id', status. split_and!; [now right|assumption|reflexivity].
    + intros (id' & status & Hin & Ha & ->).
      apply elem_of_cons in Hin as [->|Hin].
      * left. unfold failure_entries. simpl. rewrite Ha. now left.
      * right. now exists id', status.
Qed.

(** C2: when every activities query either fails with an exit status or is
    answered with a well-formed document, [extract_metrics] returns a
    report.  Its [tests_scanned] is the number of identifiers collected,
    failed ones included; its [errors] hold one entry for each failed
    identifier, in order, and none for the others: the entry of a failed
    identifier pairs it with the text
    "xcresulttool activities failed with exit code " followed by the decimal
    text of the exit status, from which the status reads back, and every
    entry is such an entry, no identifier having two; its [metrics] are
    those of a run over the answered identifiers alone, so a failure neither
    drops what was found before nor stops what comes after; and every metric
    an answer carries is a key of [metrics]. *)
Theorem failed_query_is_recorded (path : string) (payload : pydict json)
    (test_nodes : list json) (test_ids : list string) :
  run_json_command (tests_command path) = Ok (JDict payload) ->
  get "testNodes" payload = JList test_nodes ->
  collect_test_ids test_nodes = Ok test_ids ->
  (forall id, id ∈ test_ids ->
     answer_ok (run_json_command (activities_command path id)) = true) ->
  exists r,
    extract_metrics float_of_Q run_json_command path = Ok r /\
    tests_scanned r = List.length test_ids /\
    NoDup test_ids /\
    errors r = failure_entries path test_ids /\
    (forall id status,
       id ∈ test_ids ->
       run_json_command (activities_command path id)
       = Raise (CalledProcessError status) ->
       exists digits,
         int_of_text digits = Some status /\
         ExtractionError id
           ("xcresulttool activities failed with exit code " ++ digits)
         ∈ errors r) /\
    (forall entry,
       entry ∈ errors r ->
       exists status digits,
         test_id entry ∈ test_ids /\
         run_json_command (activities_command path (test_id entry))
         = Raise (CalledProcessError status) /\
         int_of_text digits = Some status /\
         error entry
         = ("xcresulttool activities failed with exit code " ++ digits)%string)
    /\
    NoDup (map test_id (errors r)) /\
    (exists found,
       scan_tests float_of_Q run_json_command path
         (List.filter
            (fun id => succeeded (run_json_command (activities_command path id)))
            test_ids)
         ([], [])
       = Ok (found, []) /\
       metrics r = dict_of_items (sorted found)) /\
    (forall id n,
       id ∈ test_ids ->
       carries (run_json_command (activities_command path id)) n ->
       n ∈ dict_keys (metrics r)).
Proof.
  intros Hq Hnodes Hids Hok.
  assert (Hnd_ids : NoDup test_ids).
  { apply (collect_loop_NoDup test_nodes (∅, []) test_ids Hids).
    apply collect_inv_init. }
  destruct (scan_tests_spec path test_ids [] Hok)
    as (found & Hrun & Hfilter & _ & Hcar).
  exists (Report path (List.length test_ids) (List.length found)
                 (dict_of_items (sorted found))
                 (failure_entries path test_ids)).
  split_and!; try reflexivity.
  - unfold extract_metrics. rewrite Hq. simpl. rewrite Hnodes, Hids. simpl.
    now rewrite Hrun.
  - assumption.
  - intros id status Hin Ha. exists (string_of_Z status).
    split; [apply int_of_text_string_of_Z|]. simpl.
    apply failure_entries_elem. now exists id, status.
  - intros entry Hin. simpl in Hin.
    apply failure_entries_elem in Hin as (id & status & Hid & Ha & ->).
    exists status, (string_of_Z status). simpl.
    split_and!; try assumption; [apply int_of_text_string_of_Z|reflexivity].
  - simpl. eapply sublist_NoDup; [exact Hnd_ids|apply failure_entries_sublist].
  - exists found. split; [apply Hfilter|reflexivity].
  - intros id n Hin Hc. simpl.
    assert (Hnd : NoDup (dict_keys found)).
    { specialize (Hrun []).
      apply (scan_tests_NoDup path test_ids _ _ Hrun). constructor. }
    rewrite dict_of_items_NoDup by (now rewrite sorted_keys).
    unfold dict_keys. rewrite sorted_keys. now apply (Hcar id n).
Qed.

(** C1, as the code has it: when the answer to the tests query has no
    [testNodes] key, or has one that is no list, [extract_metrics] raises the
    [RuntimeError], and a run of [main] that got to the bundle at [path]
    exits with status 1 and prints no report; an empty [testNodes] list is no
    error, and gives a report of no test, no metric and no error, which a
    run that has no file of [--out] to write, or wrote it, prints before it
    exits with status 0. *)
Theorem unusable_test_nodes_are_fatal (path : string) (payload : pydict json) :
  run_json_command (tests_command path) = Ok (JDict payload) ->
  (dict_lookup "testNodes" payload = None \/
   (forall l, get "testNodes" payload <> JList l) ->
   extract_metrics float_of_Q run_json_command path
   = Raise (RuntimeError "Unable to parse test nodes from xcresult.") /\
   forall w args,
     started w args path ->
     main float_of_Q run_json_command w = Exit 1 None) /\
  (get "testNodes" payload = JList [] ->
   extract_metrics float_of_Q run_json_command path
   = Ok (Report path 0 0 [] []) /\
   forall w args,
     started w args path ->
     write_out w args (Report path 0 0 [] []) = Ok tt ->
     main float_of_Q run_json_command w
     = Exit 0 (Some (Report path 0 0 [] []))).
Proof.
  intros Hq. split.
  - intros Hbad.
    assert (Hnl : forall l, get "testNodes" payload <> JList l).
    { destruct Hbad as [Hnone|Hnl]; [|assumption].
      intros l. unfold get. now rewrite Hnone. }
    assert (He : extract_metrics float_of_Q run_json_command path
                 = Raise (RuntimeError "Unable to parse test nodes from xcresult.")).
    { unfold extract_metrics. rewrite Hq. simpl.
      destruct (get "testNodes" payload) as [| | | |l|]; try reflexivity.
      now destruct (Hnl l). }
    split; [assumption|]. intros w args Hs.
    rewrite (main_started _ _ w args path Hs). unfold main_try.
    now rewrite He.
  - intros Hempty.
    assert (He : extract_metrics float_of_Q run_json_command path
                 = Ok (Report path 0 0 [] [])).
    { unfold extract_metrics. rewrite Hq. simpl. rewrite Hempty.
      unfold collect_test_ids. now rewrite collect_loop_nil. }
    split; [assumption|]. intros w args Hs Hout.
    rewrite (main_started _ _ w args path Hs). unfold main_try.
    now rewrite He, Hout.
Qed.
End OrchestratorFacts.

(** A host for the examples: the command line
    [--xcresult Trai.xcresult], with [--out o] when [o] is given; no path
    starts with a tilde, the bundle is there and the output file can be
    written. *)
Definition sample_host (o : option string) : host Q :=
  Host (Parsed (Namespace "Trai.xcresult" o false))
       (fun p => Ok p) (fun _ => Ok true) (fun _ => Ok tt) (fun _ _ _ => Ok tt).

Lemma sample_host_started (o : option string) :
  started (sample_host o) (Namespace "Trai.xcresult" o false) "Trai.xcresult".
Proof. now split_and!. Qed.

(** A tool that answers the tests query with an empty [testNodes] list. *)
Definition empty_tool (command : list string) : result json :=
  if bool_decide (command = tests_command "Trai.xcresult")
  then Ok (JDict [("testNodes", JList [])])
  else Raise (CalledProcessError 64).

(** C1 fails on an empty list: the run ends with a report and status 0. *)
Lemma empty_test_nodes_give_a_report :
  empty_tool (tests_command "Trai.xcresult")
  = Ok (JDict [("testNodes", JList [])]) /\
  extract_metrics exact_float empty_tool "Trai.xcresult"
  = Ok (Report "Trai.xcresult" 0 0 [] []) /\
  main exact_float empty_tool (sample_host None)
  = Exit 0 (Some (Report "Trai.xcresult" 0 0 [] [])) /\
  ~ exists e, extract_metrics exact_float empty_tool "Trai.xcresult" = Raise e.
Proof.
  assert (He : extract_metrics exact_float empty_tool "Trai.xcresult"
               = Ok (Report "Trai.xcresult" 0 0 [] []))
    by (vm_compute; reflexivity).
  split_and!; [reflexivity|exact He|vm_compute; reflexivity|].
  intros [e H]. rewrite He in H. discriminate.
Qed.

(** A tool that answers the tests query with an object without the key. *)
Definition keyless_tool (command : list string) : result json :=
  if bool_decide (command = tests_command "Trai.xcresult")
  then Ok (JDict [("devices", JList [])])
  else Raise (CalledProcessError 64).

Lemma unusable_test_nodes_are_fatal_witness :
  keyless_tool (tests_command "Trai.xcresult")
  = Ok (JDict [("devices", JList [])]) /\
  dict_lookup "testNodes" [("devices", JList [])] = None /\
  main exact_float keyless_tool (sample_host None) = Exit 1 None.
Proof.
  split_and!; [reflexivity|reflexivity|].
  exact (proj2 (proj1 (unusable_test_nodes_are_fatal exact_float keyless_tool
                         "Trai.xcresult" [("devices", JList [])] eq_refl)
                  (or_introl eq_refl))
           (sample_host None) _ (sample_host_started None)).
Defined.


(** A bundle with three test cases; the activities query of the second
    identifier collected fails, and the two others carry one marker each. *)
Definition sample_tree : pydict json :=
  [("testNodes",
    JList
      [JDict
         [("nodeType", JStr "Test Plan");
          ("children",
           JList
             [test_case_node [("nodeIdentifierURL", JStr "test://A")];
              test_case_node [("nodeIdentifierURL", JStr "test://B")];
              test_case_node [("nodeIdentifierURL", JStr "test://C")]])]])].

Definition runs_of (activities : list json) : json :=
  JDict [("testRuns", JList [JDict [("activities", JList activities)]])].

Definition sample_tool (command : list string) : result json :=
  if bool_decide (command = tests_command "Trai.xcresult")
  then Ok (JDict sample_tree)
  else if bool_decide
            (command = activities_command "Trai.xcresult" "test://A")
  then Ok (runs_of [activity_with "Relaunch"
                      [activity "Latency metric reopen_to_tabbar=1.102s"]])
  else if bool_decide
            (command = activities_command "Trai.xcresult" "test://C")
  then Ok (runs_of [activity "Latency metric startup_to_tabbar=4.821s"])
  else Raise (CalledProcessError 1).

Example extract_sample :
  extract_metrics exact_float sample_tool "Trai.xcresult"
  = Ok (Report "Trai.xcresult" 3 2
          [("reopen_to_tabbar", Qred 1.102);
           ("startup_to_tabbar", Qred 4.821)]
          [ExtractionError "test://B"
             "xcresulttool activities failed with exit code 1"]).
Proof. vm_compute. reflexivity. Qed.

Lemma failed_query_is_recorded_witness :
  (sample_tool (tests_command "Trai.xcresult") = Ok (JDict sample_tree) /\
   collect_test_ids
     (match get "testNodes" sample_tree with JList l => l | _ => [] end)
   = Ok ["test://C"; "test://B"; "test://A"] /\
   sample_tool (activities_command "Trai.xcresult" "test://B")
   = Raise (CalledProcessError 1)) /\
  exists r,
    extract_metrics exact_float sample_tool "Trai.xcresult" = Ok r /\
    tests_scanned r = 3 /\
    errors r
    = [ExtractionError "test://B"
         "xcresulttool activities failed with exit code 1"] /\
    dict_keys (metrics r) = ["reopen_to_tabbar"; "startup_to_tabbar"].
Proof.
  assert (Hids : collect_test_ids
                   (match get "testNodes" sample_tree with
                    | JList l => l
                    | _ => []
                    end)
                 = Ok ["test://C"; "test://B"; "test://A"])
    by (vm_compute; reflexivity).
  split; [now split_and!|].
  assert (Hok : forall id, id ∈ ["test://C"; "test://B"; "test://A"] ->
            answer_ok (sample_tool (activities_command "Trai.xcresult" id))
            = true).
  { intros id Hin.
    repeat (apply elem_of_cons in Hin as [->|Hin]; [reflexivity|]).
    now apply elem_of_nil in Hin. }
  destruct (failed_query_is_recorded exact_float sample_tool "Trai.xcresult"
              sample_tree _ _ eq_refl eq_refl Hids Hok)
    as (r & Hr & Hn & _ & He & _ & _ & _ & (found & Hfound & Hm) & _).
  exists r. split; [exact Hr|]. split; [exact Hn|]. split; [exact He|].
  rewrite Hm. vm_compute in Hfound. injection Hfound as <-.
  vm_compute. reflexivity.
Defined.

Lemma report_metrics_sorted_witness :
  exists r,
    extract_metrics exact_float sample_tool "Trai.xcresult" = Ok r /\
    dict_keys (metrics r) = ["reopen_to_tabbar"; "startup_to_tabbar"] /\
    StronglySorted String.le (dict_keys (metrics r)).
Proof.
  destruct (extract_metrics exact_float sample_tool "Trai.xcresult")
    as [r|e] eqn:H; [|vm_compute in H; discriminate H].
  exists r. split_and!; [reflexivity| |].
  - vm_compute in H. now injection H as <-.
  - exact (proj1 (report_metrics_sorted exact_float sample_tool
                    "Trai.xcresult" r H)).
Defined.

(** * Further properties of the script *)

(** ** When the two walks raise *)

Lemma Exists_push_dicts (rest : list json) (xs : json) :
  Exists (fun j => is_dict j = false) rest ->
  Exists (fun j => is_dict j = false) (push_dicts rest xs).
Proof.
  intros H. destruct xs; simpl; try assumption.
  apply Exists_app. now left.
Qed.

Lemma Forall_or_Exists_dict (l : list json) :
  Forall (fun j => is_dict j = true) l \/
  Exists (fun j => is_dict j = false) l.
Proof.
  induction l as [|x l [IH|IH]].
  - left. constructor.
  - destruct (is_dict x) eqn:E.
    + left. now constructor.
    + right. now constructor.
  - right. now constructor.
Qed.

Lemma Forall_Exists_dict_absurd (l : list json) :
  Forall (fun j => is_dict j = true) l ->
  Exists (fun j => is_dict j = false) l -> False.
Proof.
  intros Hall Hex. apply Exists_exists in Hex as (x & Hx & Hfalse).
  rewrite Forall_forall in Hall. specialize (Hall x Hx). congruence.
Qed.

(** An entry of the worklist that is no object makes the loop raise
    [AttributeError], sooner or later. *)
Lemma collect_loop_raises (stack : list json) :
  forall st,
    Exists (fun j => is_dict j = false) stack ->
    collect_loop stack st = Raise AttributeError.
Proof.
  induction stack as [stack IH] using (induction_ltof1 _ stack_size).
  intros st Hex. destruct (stack_cases stack) as [->|(rest & x & ->)].
  - now apply Exists_nil in Hex.
  - destruct (is_dict x) eqn:Hx.
    + destruct x as [| | | | |node]; try discriminate.
      rewrite collect_loop_dict.
      apply (IH _ (push_dicts_size rest "children" node)).
      apply Exists_push_dicts. apply Exists_app in Hex as [Hex|Hex];
        [assumption|].
      apply Exists_cons in Hex as [Hex|Hex]; [discriminate|].
      now apply Exists_nil in Hex.
    + now apply collect_loop_not_dict.
Qed.

(** X1: [collect_test_ids] returns a list exactly when every entry of
    [test_nodes] is an object, and raises exactly when some entry is not;
    the exception is then [AttributeError], whatever the entries below the
    top level are (those are filtered, the top level is not). *)
Theorem collect_test_ids_raises_iff (test_nodes : list json) :
  (Forall (fun j => is_dict j = true) test_nodes <->
   exists ids, collect_test_ids test_nodes = Ok ids) /\
  (Exists (fun j => is_dict j = false) test_nodes <->
   collect_test_ids test_nodes = Raise AttributeError) /\
  (forall e, collect_test_ids test_nodes = Raise e -> e = AttributeError).
Proof.
  assert (Hok : Forall (fun j => is_dict j = true) test_nodes ->
                exists ids, collect_test_ids test_nodes = Ok ids).
  { intros H.
    destruct (collect_loop_spec test_nodes (∅, []) H collect_inv_init)
      as (ids & Hrun & _).
    now exists ids. }
  assert (Hraise : Exists (fun j => is_dict j = false) test_nodes ->
                   collect_test_ids test_nodes = Raise AttributeError)
    by apply collect_loop_raises.
  split_and!.
  - split; [assumption|]. intros [ids Hids].
    destruct (Forall_or_Exists_dict test_nodes) as [H|H]; [assumption|].
    rewrite (Hraise H) in Hids. discriminate.
  - split; [assumption|]. intros Hr.
    destruct (Forall_or_Exists_dict test_nodes) as [H|H]; [|assumption].
    destruct (Hok H) as [ids Hids]. congruence.
  - intros e He.
    destruct (Forall_or_Exists_dict test_nodes) as [H|H].
    + destruct (Hok H) as [ids Hids]. congruence.
    + rewrite (Hraise H) in He. congruence.
Qed.

(** ** The order of the identifiers *)

(** The body of the test-case branch, by the identifier the node stands
    for. *)
Lemma record_test_id_alt (node : pydict json) (st : gset string * list string) :
  record_test_id node st
  = match node_test_id node with
    | Some id =>
        if bool_decide (id ∈ st.1) then st
        else ({[id]} ∪ st.1, st.2 ++ [id])
    | None => st
    end.
Proof.
  unfold record_test_id, node_test_id.
  destruct (is_test_case (get "nodeType" node)); [|reflexivity].
  destruct (py_or _ _) as [| | |s| |]; try reflexivity.
  destruct (String.eqb s ""); simpl; [reflexivity|].
  now destruct (bool_decide (s ∈ st.1)).
Qed.

Lemma collect_inv_seen (st : gset string * list string) :
  collect_inv st -> st = (list_to_set st.2, st.2).
Proof.
  intros [_ Hseen]. destruct st as [seen ids]. simpl in *. f_equal.
  apply set_eq. intros id. now rewrite elem_of_list_to_set.
Qed.

Lemma collect_inv_of_list (ids : list string) :
  NoDup ids -> collect_inv (list_to_set ids, ids).
Proof.
  intros Hnd. split; [assumption|]. intros id. simpl.
  now rewrite elem_of_list_to_set.
Qed.

Lemma push_dicts_app (s1 s2 : list json) (xs : json) :
  push_dicts (s1 ++ s2) xs = s1 ++ push_dicts s2 xs.
Proof. destruct xs; simpl; try reflexivity. now rewrite app_assoc. Qed.

(** The entries at the bottom of the worklist wait until those above them,
    and all that these lead to, are done. *)
Lemma collect_loop_app (s1 s2 : list json) :
  forall st ids2,
    collect_inv st ->
    collect_loop s2 st = Ok ids2 ->
    collect_loop (s1 ++ s2) st = collect_loop s1 (list_to_set ids2, ids2).
Proof.
  induction s2 as [s2 IH] using (induction_ltof1 _ stack_size).
  intros st ids2 Hinv Hrun.
  destruct (stack_cases s2) as [->|(rest & x & ->)].
  - rewrite collect_loop_nil in Hrun. injection Hrun as <-.
    now rewrite app_nil_r, <- collect_inv_seen.
  - destruct x as [| | | | |node];
      try (rewrite collect_loop_not_dict in Hrun by reflexivity; discriminate).
    rewrite collect_loop_dict in Hrun.
    rewrite app_assoc, collect_loop_dict, push_dicts_app.
    apply (IH _ (push_dicts_size rest "children" node)); [|assumption].
    now apply record_test_id_spec.
Qed.

(** Starting with identifiers already held only filters what the loop
    adds. *)
Lemma collect_loop_shift (stack : list json) :
  forall sa sb base ids,
    collect_inv sa -> collect_inv sb ->
    sb.2 = base ++ filter (fun id => id ∉ base) sa.2 ->
    collect_loop stack sa = Ok ids ->
    collect_loop stack sb = Ok (base ++ filter (fun id => id ∉ base) ids).
Proof.
  induction stack as [stack IH] using (induction_ltof1 _ stack_size).
  intros sa sb base ids Ha Hb Hrel Hrun.
  destruct (stack_cases stack) as [->|(rest & x & ->)].
  - rewrite collect_loop_nil in *. injection Hrun as <-. now rewrite Hrel.
  - destruct x as [| | | | |node];
      try (rewrite collect_loop_not_dict in Hrun by reflexivity; discriminate).
    rewrite collect_loop_dict in *.
    apply (IH _ (push_dicts_size rest "children" node)
              (record_test_id node sa) (record_test_id node sb) base ids);
      [now apply record_test_id_spec|now apply record_test_id_spec| |assumption].
    rewrite !record_test_id_alt.
    destruct (node_test_id node) as [id|]; [|assumption].
    destruct Ha as [_ Hsa]. destruct Hb as [_ Hsb].
    assert (Hin_b : id ∈ sb.1 <-> id ∈ base \/ id ∈ sa.1).
    { rewrite Hsb, Hrel, elem_of_app, list_elem_of_filter, Hsa.
      destruct (decide (id ∈ base)); tauto. }
    destruct (decide (id ∈ sa.1)) as [Hin|Hnin].
    + rewrite (bool_decide_eq_true_2 _ Hin).
      rewrite bool_decide_eq_true_2 by (apply Hin_b; now right). assumption.
    + rewrite (bool_decide_eq_false_2 _ Hnin). simpl.
      rewrite filter_app, app_assoc, <- Hrel.
      destruct (decide (id ∈ base)) as [Hbase|Hbase].
      * rewrite bool_decide_eq_true_2 by (apply Hin_b; now left).
        rewrite filter_cons_False by (intros H; now apply H).
        now rewrite filter_nil, app_nil_r.
      * rewrite bool_decide_eq_false_2 by (rewrite Hin_b; tauto). simpl.
        now rewrite filter_cons_True by assumption.
Qed.

(** X2: on forests put end to end, the identifiers of the second forest come
    first, in their own order, and those of the first forest follow, without
    the ones the second already gave: the walk takes the top-level entries
    from the last to the first. *)
Theorem collect_test_ids_app (a b : list json) (ids_a ids_b : list string) :
  collect_test_ids a = Ok ids_a ->
  collect_test_ids b = Ok ids_b ->
  collect_test_ids (a ++ b)
  = Ok (ids_b ++ filter (fun id => id ∉ ids_b) ids_a).
Proof.
  unfold collect_test_ids. intros Ha Hb.
  rewrite (collect_loop_app a b (∅, []) ids_b collect_inv_init Hb).
  apply (collect_loop_shift a (∅, [])); try assumption.
  - apply collect_inv_init.
  - apply collect_inv_of_list.
    apply (collect_loop_NoDup b (∅, []) ids_b Hb collect_inv_init).
  - simpl. now rewrite filter_nil, app_nil_r.
Qed.

Lemma collect_test_ids_app_witness :
  (collect_test_ids
     [test_case_node [("nodeIdentifier", JStr "t1")];
      test_case_node [("nodeIdentifier", JStr "t2")]]
   = Ok ["t2"; "t1"] /\
   collect_test_ids
     [test_case_node [("nodeIdentifier", JStr "t1")];
      test_case_node [("nodeIdentifier", JStr "t3")]]
   = Ok ["t3"; "t1"]) /\
  collect_test_ids
    ([test_case_node [("nodeIdentifier", JStr "t1")];
      test_case_node [("nodeIdentifier", JStr "t2")]]
     ++ [test_case_node [("nodeIdentifier", JStr "t1")];
         test_case_node [("nodeIdentifier", JStr "t3")]])
  = Ok (["t3"; "t1"] ++ filter (fun id => id ∉ ["t3"; "t1"]) ["t2"; "t1"]).
Proof.
  assert (Ha : collect_test_ids
                 [test_case_node [("nodeIdentifier", JStr "t1")];
                  test_case_node [("nodeIdentifier", JStr "t2")]]
               = Ok ["t2"; "t1"]) by (vm_compute; reflexivity).
  assert (Hb : collect_test_ids
                 [test_case_node [("nodeIdentifier", JStr "t1")];
                  test_case_node [("nodeIdentifier", JStr "t3")]]
               = Ok ["t3"; "t1"]) by (vm_compute; reflexivity).
  split; [now split|]. exact (collect_test_ids_app _ _ _ _ Ha Hb).
Defined.

(** The identifiers of a one-node forest. *)
Lemma collect_single (node : pydict json) (ids : list string) :
  collect_test_ids (push_dicts [] (get "children" node)) = Ok ids ->
  collect_test_ids [JDict node]
  = Ok (match node_test_id node with
        | Some id => id :: filter (fun id' => id' ∉ [id]) ids
        | None => ids
        end).
Proof.
  unfold collect_test_ids. intros Hc.
  change [JDict node] with ([] ++ [JDict node]).
  rewrite collect_loop_dict, record_test_id_alt. simpl.
  destruct (node_test_id node) as [id|]; [|assumption].
  rewrite bool_decide_eq_false_2 by apply not_elem_of_empty.
  apply (collect_loop_shift _ (∅, []) _ [id] ids); try assumption.
  - apply collect_inv_init.
  - split; simpl.
    + apply NoDup_singleton.
    + intros id'. rewrite elem_of_union, elem_of_singleton,
        list_elem_of_singleton.
      split; [intros [H|H]; [assumption|now apply not_elem_of_empty in H]
             |now left].
  - simpl. now rewrite filter_nil.
Qed.

(** X3: a node comes before what is under it: the identifiers of a one-node
    forest are the node's own identifier, if it stands for one, followed by
    those of the objects among its [children], without the node's own. *)
Theorem collect_test_ids_node (node : pydict json) (ids : list string) :
  collect_test_ids (push_dicts [] (get "children" node)) = Ok ids ->
  collect_test_ids [JDict node]
  = Ok (match node_test_id node with
        | Some id => id :: filter (fun id' => id' ∉ [id]) ids
        | None => ids
        end).
Proof. exact (collect_single node ids). Qed.

Lemma collect_test_ids_node_witness :
  collect_test_ids
    (push_dicts []
       (get "children"
          [("nodeType", JStr "Test Case");
           ("nodeIdentifier", JStr "outer");
           ("children",
            JList [test_case_node [("nodeIdentifier", JStr "outer")];
                   JStr "stray";
                   test_case_node [("nodeIdentifier", JStr "inner")]])]))
  = Ok ["inner"; "outer"] /\
  collect_test_ids
    [JDict
       [("nodeType", JStr "Test Case");
        ("nodeIdentifier", JStr "outer");
        ("children",
         JList [test_case_node [("nodeIdentifier", JStr "outer")];
                JStr "stray";
                test_case_node [("nodeIdentifier", JStr "inner")]])]]
  = Ok ["outer"; "inner"].
Proof.
  assert (Hc : collect_test_ids
                 (push_dicts []
                    (get "children"
                       [("nodeType", JStr "Test Case");
                        ("nodeIdentifier", JStr "outer");
                        ("children",
                         JList
                           [test_case_node [("nodeIdentifier", JStr "outer")];
                            JStr "stray";
                            test_case_node
                              [("nodeIdentifier", JStr "inner")]])]))
               = Ok ["inner"; "outer"]) by (vm_compute; reflexivity).
  split; [exact Hc|].
  exact (collect_test_ids_node _ _ Hc).
Defined.

(** *** Which field names a test case *)

Lemma node_test_id_Some (node : pydict json) (id : string) :
  node_test_id node = Some id ->
  id <> "" /\
  get "nodeType" node = JStr "Test Case" /\
  (get "nodeIdentifierURL" node = JStr id \/
   truthy (get "nodeIdentifierURL" node) = false /\
   get "nodeIdentifier" node = JStr id).
Proof.
  unfold node_test_id, is_test_case, py_or.
  destruct (get "nodeType" node) as [| | |t| |]; try discriminate.
  destruct (String.eqb_spec t "Test Case") as [->|]; [|discriminate].
  destruct (truthy (get "nodeIdentifierURL" node)) eqn:Ht.
  - destruct (get "nodeIdentifierURL" node) as [| | |s| |]; try discriminate.
    destruct (String.eqb_spec s "") as [|Hne]; [discriminate|].
    intros [= <-]. split_and!; [assumption|reflexivity|now left].
  - destruct (get "nodeIdentifier" node) as [| | |s| |]; try discriminate.
    destruct (String.eqb_spec s "") as [|Hne]; [discriminate|].
    intros [= <-]. split_and!; [assumption|reflexivity|right; now split].
Qed.

Lemma truthy_string (u : string) : u <> "" -> truthy (JStr u) = true.
Proof. intros H. simpl. now rewrite (proj2 (String.eqb_neq u "") H). Qed.

Lemma node_test_id_url (node : pydict json) (u : string) :
  is_test_case (get "nodeType" node) = true ->
  get "nodeIdentifierURL" node = JStr u -> u <> "" ->
  node_test_id node = Some u.
Proof.
  intros Htc Hu Hne. unfold node_test_id, py_or.
  rewrite Htc, Hu, (truthy_string u Hne).
  now rewrite (proj2 (String.eqb_neq u "") Hne).
Qed.

Lemma node_test_id_plain (node : pydict json) (s : string) :
  is_test_case (get "nodeType" node) = true ->
  truthy (get "nodeIdentifierURL" node) = false ->
  get "nodeIdentifier" node = JStr s -> s <> "" ->
  node_test_id node = Some s.
Proof.
  intros Htc Hf Hs Hne. unfold node_test_id, py_or.
  rewrite Htc, Hf, Hs. now rewrite (proj2 (String.eqb_neq s "") Hne).
Qed.

Lemma node_test_id_truthy (node : pydict json) :
  is_test_case (get "nodeType" node) = true ->
  truthy (get "nodeIdentifierURL" node) = true ->
  node_test_id node
  = match get "nodeIdentifierURL" node with
    | JStr u => Some u
    | _ => None
    end.
Proof.
  intros Htc Ht. unfold node_test_id, py_or. rewrite Htc, Ht.
  destruct (get "nodeIdentifierURL" node) as [| | |u| |]; try reflexivity.
  simpl in Ht. now destruct (String.eqb u "").
Qed.

Lemma node_test_id_unusable (node : pydict json) :
  (forall s, s <> "" -> get "nodeIdentifierURL" node <> JStr s) ->
  (forall s, s <> "" -> get "nodeIdentifier" node <> JStr s) ->
  node_test_id node = None.
Proof.
  intros Hurl Hid. destruct (node_test_id node) as [id|] eqn:E;
    [|reflexivity].
  apply node_test_id_Some in E as (Hne & _ & [H|[_ H]]);
    [now destruct (Hurl id Hne)|now destruct (Hid id Hne)].
Qed.

(** The values Python takes for false. *)
Lemma truthy_false (v : json) :
  truthy v = false <->
  v = JNull \/ v = JBool false \/ v = JStr "" \/ v = JList [] \/
  v = JDict [] \/ exists q, v = JNum q /\ Qnum q = 0%Z.
Proof.
  split.
  - destruct v as [|[]|q|s|[|x l]|[|x d]]; simpl; try discriminate; auto 6.
    + intros H. right. right. right. right. right. exists q.
      split; [reflexivity|]. apply Z.eqb_eq. now destruct (Qnum q =? 0)%Z.
    + destruct (String.eqb_spec s "") as [->|]; [auto|discriminate].
  - intros [->|[->|[->|[->|[->|(q & -> & Hq)]]]]]; try reflexivity.
    simpl. now rewrite Hq.
Qed.

(** C6, as the code has it.  On a node of type "Test Case", with [below] for
    what [collect_test_ids] gives on the objects among its children: when
    [nodeIdentifierURL] is a non-empty string [collect_test_ids] records
    it, whatever [nodeIdentifier] holds; when [nodeIdentifierURL] is falsy it
    records [nodeIdentifier], if that is a non-empty string; when neither
    field is a non-empty string it records nothing for the node; and when
    [nodeIdentifierURL] is truthy the outcome is read off that field alone,
    so [nodeIdentifier] is used only under a falsy URL field.  Falsy is
    absent, null, false, zero, or an empty string, list or object.  The same
    holds of a node anywhere in a forest. *)
Theorem collect_prefers_url (node : pydict json) (below : list string) :
  is_test_case (get "nodeType" node) = true ->
  collect_test_ids (push_dicts [] (get "children" node)) = Ok below ->
  (forall u,
     get "nodeIdentifierURL" node = JStr u -> u <> "" ->
     collect_test_ids [JDict node]
     = Ok (u :: filter (fun id => id ∉ [u]) below)) /\
  (forall s,
     truthy (get "nodeIdentifierURL" node) = false ->
     get "nodeIdentifier" node = JStr s -> s <> "" ->
     collect_test_ids [JDict node]
     = Ok (s :: filter (fun id => id ∉ [s]) below)) /\
  ((forall s, s <> "" -> get "nodeIdentifierURL" node <> JStr s) ->
   (forall s, s <> "" -> get "nodeIdentifier" node <> JStr s) ->
   collect_test_ids [JDict node] = Ok below) /\
  (truthy (get "nodeIdentifierURL" node) = true ->
   collect_test_ids [JDict node]
   = Ok (match get "nodeIdentifierURL" node with
         | JStr u => u :: filter (fun id => id ∉ [u]) below
         | _ => below
         end)) /\
  (truthy (get "nodeIdentifierURL" node) = false <->
   get "nodeIdentifierURL" node = JNull \/
   get "nodeIdentifierURL" node = JBool false \/
   get "nodeIdentifierURL" node = JStr "" \/
   get "nodeIdentifierURL" node = JList [] \/
   get "nodeIdentifierURL" node = JDict [] \/
   exists q, get "nodeIdentifierURL" node = JNum q /\ Qnum q = 0%Z) /\
  (forall forest ids,
     collect_test_ids forest = Ok ids ->
     reaches "children" forest node ->
     (forall u, get "nodeIdentifierURL" node = JStr u -> u <> "" -> u ∈ ids) /\
     (forall s,
        truthy (get "nodeIdentifierURL" node) = false ->
        get "nodeIdentifier" node = JStr s -> s <> "" -> s ∈ ids)).
Proof.
  intros Htc Hbelow. pose proof (collect_single node below Hbelow) as Hone.
  split_and!.
  - intros u Hu Hne. now rewrite Hone, (node_test_id_url node u Htc Hu Hne).
  - intros s Hf Hs Hne.
    now rewrite Hone, (node_test_id_plain node s Htc Hf Hs Hne).
  - intros Hurl Hid. now rewrite Hone, (node_test_id_unusable node Hurl Hid).
  - intros Ht. rewrite Hone, (node_test_id_truthy node Htc Ht).
    now destruct (get "nodeIdentifierURL" node).
  - apply truthy_false.
  - intros forest ids Hrun Hreach.
    assert (Hdict : Forall (fun j => is_dict j = true) forest).
    { destruct (Forall_or_Exists_dict forest) as [H|H]; [assumption|].
      unfold collect_test_ids in Hrun.
      rewrite (collect_loop_raises _ _ H) in Hrun. discriminate. }
    destruct (collect_loop_spec forest (∅, []) Hdict collect_inv_init)
      as (ids' & Hrun' & _ & _ & Hmem).
    unfold collect_test_ids in Hrun. rewrite Hrun in Hrun'.
    injection Hrun' as <-.
    split.
    + intros u Hu Hne. apply Hmem. right. exists node.
      split; [assumption|now apply node_test_id_url].
    + intros s Hf Hs Hne. apply Hmem. right. exists node.
      split; [assumption|now apply node_test_id_plain].
Qed.

Definition both_ids_node : pydict json :=
  [("nodeType", JStr "Test Case");
   ("nodeIdentifier", JStr "SuiteA/testOne");
   ("nodeIdentifierURL", JStr "test://com.apple.xcode/Trai/SuiteA/testOne")].

Lemma collect_prefers_url_witness :
  (is_test_case (get "nodeType" both_ids_node) = true /\
   collect_test_ids (push_dicts [] (get "children" both_ids_node)) = Ok [] /\
   get "nodeIdentifier" both_ids_node = JStr "SuiteA/testOne") /\
  collect_test_ids [JDict both_ids_node]
  = Ok ["test://com.apple.xcode/Trai/SuiteA/testOne"].
Proof.
  assert (Hbelow : collect_test_ids
                     (push_dicts [] (get "children" both_ids_node)) = Ok [])
    by (vm_compute; reflexivity).
  split; [now split_and!|].
  apply (proj1 (collect_prefers_url both_ids_node [] eq_refl Hbelow)
           "test://com.apple.xcode/Trai/SuiteA/testOne").
  - reflexivity.
  - discriminate.
Defined.

(** A test case whose URL field is the number zero, and one whose URL field
    is [false]: the field is there and is no empty value, and the plain
    identifier is what is recorded. *)
Definition zero_url_node : pydict json :=
  [("nodeType", JStr "Test Case");
   ("nodeIdentifierURL", JNum 0);
   ("nodeIdentifier", JStr "SuiteA/testOne")].

Definition false_url_node : pydict json :=
  [("nodeType", JStr "Test Case");
   ("nodeIdentifierURL", JBool false);
   ("nodeIdentifier", JStr "SuiteA/testTwo")].

(** C6 fails on a URL field that is zero or false. *)
Lemma zero_url_records_plain_identifier :
  dict_lookup "nodeIdentifierURL" zero_url_node = Some (JNum 0) /\
  dict_lookup "nodeIdentifier" zero_url_node = Some (JStr "SuiteA/testOne") /\
  collect_test_ids [JDict zero_url_node] = Ok ["SuiteA/testOne"] /\
  dict_lookup "nodeIdentifierURL" false_url_node = Some (JBool false) /\
  collect_test_ids [JDict false_url_node] = Ok ["SuiteA/testTwo"].
Proof. split_and!; vm_compute; reflexivity. Qed.


(** X4: every identifier [collect_test_ids] returns is a non-empty string
    read from a node of type "Test Case" that the walk reaches from the
    forest: the node's [nodeIdentifierURL], or its [nodeIdentifier] when the
    URL field is falsy.  No identifier comes from a node of another type. *)
Theorem collect_test_ids_provenance (test_nodes : list json)
    (ids : list string) (id : string) :
  collect_test_ids test_nodes = Ok ids ->
  id ∈ ids ->
  id <> "" /\
  exists node,
    reaches "children" test_nodes node /\
    get "nodeType" node = JStr "Test Case" /\
    (get "nodeIdentifierURL" node = JStr id \/
     truthy (get "nodeIdentifierURL" node) = false /\
     get "nodeIdentifier" node = JStr id).
Proof.
  intros Hrun Hin.
  assert (Hdict : Forall (fun j => is_dict j = true) test_nodes).
  { destruct (Forall_or_Exists_dict test_nodes) as [H|H]; [assumption|].
    unfold collect_test_ids in Hrun.
    rewrite (collect_loop_raises _ _ H) in Hrun. discriminate. }
  destruct (collect_loop_spec test_nodes (∅, []) Hdict collect_inv_init)
    as (ids' & Hrun' & _ & _ & Hmem).
  unfold collect_test_ids in Hrun. rewrite Hrun in Hrun'.
  injection Hrun' as <-.
  apply Hmem in Hin as [Hin|(node & Hreach & Hid)];
    [now apply elem_of_nil in Hin|].
  apply node_test_id_Some in Hid as (Hne & Htype & Hfield).
  split; [assumption|]. now exists node.
Qed.

Lemma collect_test_ids_provenance_witness :
  (collect_test_ids sample_forest = Ok ["test://B"; "test://A"] /\
   "test://B" ∈ ["test://B"; "test://A"]) /\
  "test://B" <> "" /\
  exists node,
    reaches "children" sample_forest node /\
    get "nodeType" node = JStr "Test Case" /\
    (get "nodeIdentifierURL" node = JStr "test://B" \/
     truthy (get "nodeIdentifierURL" node) = false /\
     get "nodeIdentifier" node = JStr "test://B").
Proof.
  assert (Hrun : collect_test_ids sample_forest = Ok ["test://B"; "test://A"])
    by (vm_compute; reflexivity).
  assert (Hin : "test://B" ∈ ["test://B"; "test://A"]) by (now left).
  split; [now split|].
  exact (collect_test_ids_provenance sample_forest _ _ Hrun Hin).
Defined.

(** ** The scan: failure, order and frame *)

Section ScannerMore.
Context {F : Type} (float_of_Q : Q -> F).

#[local] Abbreviation scan := (scan_activities_for_metrics float_of_Q).

Lemma scan_loop_raises (stack : list json) :
  forall metrics,
    Exists (fun j => is_dict j = false) stack ->
    scan_loop float_of_Q stack metrics = Raise AttributeError.
Proof.
  induction stack as [stack IH] using (induction_ltof1 _ stack_size).
  intros metrics Hex. destruct (stack_cases stack) as [->|(rest & x & ->)].
  - now apply Exists_nil in Hex.
  - destruct (is_dict x) eqn:Hx.
    + destruct x as [| | | | |a]; try discriminate.
      rewrite scan_loop_dict.
      apply (IH _ (push_dicts_size rest "childActivities" a)).
      apply Exists_push_dicts. apply Exists_app in Hex as [Hex|Hex];
        [assumption|].
      apply Exists_cons in Hex as [Hex|Hex]; [discriminate|].
      now apply Exists_nil in Hex.
    + now apply scan_loop_not_dict.
Qed.

(** X5: whatever the sink holds, [scan_activities_for_metrics] returns
    exactly when every entry of [activities] is an object and raises exactly
    when some entry is not; the only exception it can raise is
    [AttributeError]: neither the search nor [float] ever raises. *)
Theorem scan_raises_iff (activities : list json) (metrics : pydict F) :
  (Forall (fun j => is_dict j = true) activities <->
   exists metrics', scan activities metrics = Ok metrics') /\
  (Exists (fun j => is_dict j = false) activities <->
   scan activities metrics = Raise AttributeError) /\
  (forall e, scan activities metrics = Raise e -> e = AttributeError).
Proof.
  assert (Hok : Forall (fun j => is_dict j = true) activities ->
                exists metrics', scan activities metrics = Ok metrics').
  { intros H.
    destruct (scan_loop_spec float_of_Q activities metrics H)
      as (m' & Hrun & _).
    now exists m'. }
  assert (Hraise : Exists (fun j => is_dict j = false) activities ->
                   scan activities metrics = Raise AttributeError)
    by apply scan_loop_raises.
  split_and!.
  - split; [assumption|]. intros [m' Hm'].
    destruct (Forall_or_Exists_dict activities) as [H|H]; [assumption|].
    rewrite (Hraise H) in Hm'. discriminate.
  - split; [assumption|]. intros Hr.
    destruct (Forall_or_Exists_dict activities) as [H|H]; [|assumption].
    destruct (Hok H) as [m' Hm']. congruence.
  - intros e He.
    destruct (Forall_or_Exists_dict activities) as [H|H].
    + destruct (Hok H) as [m' Hm']. congruence.
    + rewrite (Hraise H) in He. congruence.
Qed.

(** X6: the order of a scan.  A scan of two lists of activities put end to
    end is the scan of the second list followed by the scan of the first on
    the sink that gives: the entries are taken from the last to the first, so
    for a name that both lists carry the value of the first list is the one
    that stays; when the scan of the second list raises, so does the whole.
    And an activity is looked at before the objects among its
    [childActivities], so for a name that both carry the value below is the
    one that stays. *)
Theorem scan_order (a b : list json) (act : pydict json)
    (metrics : pydict F) :
  scan (a ++ b) metrics = bind (scan b metrics) (scan a) /\
  scan [JDict act] metrics
  = bind (record_metric float_of_Q (get "title" act) metrics)
         (scan (push_dicts [] (get "childActivities" act))).
Proof.
  unfold scan_activities_for_metrics. split.
  - revert metrics.
    induction b as [b IH] using (induction_ltof1 _ stack_size).
    intros metrics. destruct (stack_cases b) as [->|(rest & x & ->)].
    + now rewrite app_nil_r, scan_loop_nil.
    + rewrite app_assoc. destruct (is_dict x) eqn:Hx.
      * destruct x as [| | | | |node]; try discriminate.
        rewrite !scan_loop_dict, push_dicts_app.
        apply (IH _ (push_dicts_size rest "childActivities" node)).
      * now rewrite !scan_loop_not_dict.
  - change [JDict act] with ([] ++ [JDict act]).
    now rewrite scan_loop_dict, record_metric_ok.
Qed.

Lemma dict_keys_set_prefix {V : Type} (k : string) (v : V) (d : pydict V) :
  dict_keys d `prefix_of` dict_keys (dict_set k v d).
Proof.
  unfold dict_keys. induction d as [|[k0 v0] d IH]; simpl.
  - apply prefix_nil.
  - destruct (String.eqb_spec k k0) as [->|Hne]; simpl; [reflexivity|].
    now apply prefix_cons.
Qed.

Lemma recorded_prefix (title : json) (metrics : pydict F) :
  dict_keys metrics `prefix_of` dict_keys (recorded float_of_Q title metrics).
Proof.
  unfold recorded. destruct (metric_of float_of_Q title) as [[n v]|];
    [apply dict_keys_set_prefix|reflexivity].
Qed.

Lemma scan_loop_prefix (stack : list json) :
  forall metrics metrics',
    scan_loop float_of_Q stack metrics = Ok metrics' ->
    dict_keys metrics `prefix_of` dict_keys metrics'.
Proof.
  induction stack as [stack IH] using (induction_ltof1 _ stack_size).
  intros metrics metrics' Hrun.
  destruct (stack_cases stack) as [->|(rest & x & ->)].
  - rewrite scan_loop_nil in Hrun. now injection Hrun as <-.
  - destruct x as [| | | | |a];
      try (rewrite scan_loop_not_dict in Hrun by reflexivity; discriminate).
    rewrite scan_loop_dict in Hrun.
    etransitivity; [apply recorded_prefix|].
    apply (IH _ (push_dicts_size rest "childActivities" a) _ _ Hrun).
Qed.

Lemma scan_loop_Ok_dicts (stack : list json) (metrics metrics' : pydict F) :
  scan_loop float_of_Q stack metrics = Ok metrics' ->
  Forall (fun j => is_dict j = true) stack.
Proof.
  intros Hrun. destruct (Forall_or_Exists_dict stack) as [H|H]; [assumption|].
  rewrite (scan_loop_raises _ _ H) in Hrun. discriminate.
Qed.

(** A name that nothing on the worklist carries keeps its binding. *)
Lemma scan_loop_lookup_frame (stack : list json) (metrics metrics' : pydict F)
    (n : string) :
  scan_loop float_of_Q stack metrics = Ok metrics' ->
  (forall a v, reaches "childActivities" stack a ->
               metric_of float_of_Q (get "title" a) <> Some (n, v)) ->
  dict_lookup n metrics' = dict_lookup n metrics.
Proof.
  intros Hrun Hnone.
  destruct (scan_loop_spec float_of_Q stack metrics
              (scan_loop_Ok_dicts _ _ _ Hrun))
    as (m & Hm & Hfrom & Hkeys & _ & _).
  rewrite Hrun in Hm. injection Hm as <-.
  destruct (dict_lookup n metrics') as [v|] eqn:Hafter.
  - destruct (Hfrom n v Hafter) as [(a & Ha & Hm)|[Hbefore _]];
      [now destruct (Hnone a v Ha)|now symmetry].
  - destruct (dict_lookup n metrics) as [v|] eqn:Hbefore; [|reflexivity].
    assert (Hin : n ∈ dict_keys metrics')
      by (apply Hkeys; left; apply dict_lookup_keys; eauto).
    apply dict_lookup_keys in Hin as [v' Hv']. congruence.
Qed.

(** The name of a metric on the worklist is bound afterwards. *)
Lemma scan_loop_binds (stack : list json) (metrics metrics' : pydict F)
    (a : pydict json) (n : string) (v : F) :
  scan_loop float_of_Q stack metrics = Ok metrics' ->
  reaches "childActivities" stack a ->
  metric_of float_of_Q (get "title" a) = Some (n, v) ->
  n ∈ dict_keys metrics'.
Proof.
  intros Hrun Ha Hm.
  destruct (scan_loop_spec float_of_Q stack metrics
              (scan_loop_Ok_dicts _ _ _ Hrun))
    as (m & Hm' & _ & Hkeys & _ & _).
  rewrite Hrun in Hm'. injection Hm' as <-.
  apply Hkeys. right. now exists a, v.
Qed.

(** X7: a scan leaves alone what it has no word on.  The names the sink held
    stay where they were, in the same order, and new names come after them;
    and a name that no activity of the forest carries is bound afterwards to
    what it was bound before, or is still unbound. *)
Theorem scan_frame (activities : list json) (metrics metrics' : pydict F) :
  scan activities metrics = Ok metrics' ->
  dict_keys metrics `prefix_of` dict_keys metrics' /\
  forall n,
    (forall a v, reaches "childActivities" activities a ->
                 metric_of float_of_Q (get "title" a) <> Some (n, v)) ->
    dict_lookup n metrics' = dict_lookup n metrics.
Proof.
  intros Hrun. split; [now apply (scan_loop_prefix activities)|].
  intros n Hnone. now apply (scan_loop_lookup_frame activities).
Qed.

Lemma dict_keys_set_in {V : Type} (k : string) (v : V) (d : pydict V) :
  k ∈ dict_keys d -> dict_keys (dict_set k v d) = dict_keys d.
Proof.
  unfold dict_keys. induction d as [|[k0 v0] d IH]; simpl; intros Hin.
  - now apply elem_of_nil in Hin.
  - destruct (String.eqb_spec k k0) as [->|Hne]; simpl; [reflexivity|].
    apply elem_of_cons in Hin as [->|Hin]; [now destruct Hne|].
    now rewrite IH.
Qed.

(** Two dicts with the same keys in the same order and the same value for
    each are the same dict. *)
Lemma pydict_ext {V : Type} (d1 d2 : pydict V) :
  NoDup (dict_keys d1) ->
  dict_keys d1 = dict_keys d2 ->
  (forall n, dict_lookup n d1 = dict_lookup n d2) ->
  d1 = d2.
Proof.
  unfold dict_keys. revert d2.
  induction d1 as [|[k v] d1 IH]; intros [|[k2 v2] d2] Hnd Hkeys Hlook;
    try discriminate; [reflexivity|].
  simpl in *. injection Hkeys as <- Hkeys.
  apply NoDup_cons in Hnd as [Hk Hnd].
  pose proof (Hlook k) as Hv. rewrite String.eqb_refl in Hv.
  injection Hv as <-. f_equal. apply IH; try assumption.
  intros n. destruct (String.eqb_spec n k) as [->|Hne].
  - assert (H1 : dict_lookup k d1 = None).
    { destruct (dict_lookup k d1) eqn:E; [|reflexivity].
      destruct Hk. apply (dict_lookup_keys k d1). eauto. }
    assert (H2 : dict_lookup k d2 = None).
    { destruct (dict_lookup k d2) eqn:E; [|reflexivity].
      destruct Hk. unfold dict_keys in *. rewrite Hkeys.
      apply (dict_lookup_keys k d2). eauto. }
    congruence.
  - specialize (Hlook n).
    now rewrite (proj2 (String.eqb_neq n k) Hne) in Hlook.
Qed.

(** A sink that has the keys of the outcome and agrees with it on the names
    the worklist does not carry is taken to that outcome. *)
Lemma scan_loop_absorb (stack : list json) :
  forall m m1 m2,
    NoDup (dict_keys m2) ->
    scan_loop float_of_Q stack m = Ok m1 ->
    dict_keys m2 = dict_keys m1 ->
    (forall n,
       (forall a v, reaches "childActivities" stack a ->
                    metric_of float_of_Q (get "title" a) <> Some (n, v)) ->
       dict_lookup n m2 = dict_lookup n m1) ->
    scan_loop float_of_Q stack m2 = Ok m1.
Proof.
  induction stack as [stack IH] using (induction_ltof1 _ stack_size).
  intros m m1 m2 Hnd Hrun Hkeys Hlook.
  destruct (stack_cases stack) as [->|(rest & x & ->)].
  - rewrite scan_loop_nil in *. injection Hrun as <-. f_equal.
    apply pydict_ext; try assumption.
    intros n. apply Hlook. intros a v Ha. now apply reaches_nil in Ha.
  - destruct x as [| | | | |a];
      try (rewrite scan_loop_not_dict in Hrun by reflexivity; discriminate).
    pose proof Hrun as Hrun0. rewrite scan_loop_dict in Hrun |- *.
    assert (Hself : reaches "childActivities" (rest ++ [JDict a]) a)
      by (apply reaches_step; now left).
    apply (IH _ (push_dicts_size rest "childActivities" a)
              (recorded float_of_Q (get "title" a) m)); try assumption.
    + unfold recorded.
      destruct (metric_of float_of_Q (get "title" a)) as [[n v]|];
        [now apply dict_set_NoDup|assumption].
    + unfold recorded.
      destruct (metric_of float_of_Q (get "title" a)) as [[n v]|] eqn:Hm;
        [|assumption].
      rewrite dict_keys_set_in; [assumption|]. rewrite Hkeys.
      now apply (scan_loop_binds _ _ _ a n v Hrun0).
    + intros n' Hnone. unfold recorded.
      destruct (metric_of float_of_Q (get "title" a)) as [[n v]|] eqn:Hm.
      * rewrite dict_lookup_set.
        destruct (String.eqb_spec n' n) as [->|Hne].
        -- rewrite (scan_loop_lookup_frame _ _ _ n Hrun Hnone).
           unfold recorded. rewrite Hm. now rewrite dict_lookup_set_eq.
        -- apply Hlook. intros b v0 Hb Hmb.
           apply reaches_step in Hb as [->|Hb]; [congruence|].
           now apply (Hnone b v0).
      * apply Hlook. intros b v0 Hb Hmb.
        apply reaches_step in Hb as [->|Hb]; [congruence|].
        now apply (Hnone b v0).
Qed.

(** X17: scanning the same activities again changes nothing.  On a sink
    whose keys are distinct, as those of a dict are, a second scan of a
    forest into the sink the first scan returned returns that sink: each name
    ends up with the value it had, at the place it had. *)
Theorem scan_idempotent (activities : list json)
    (metrics metrics' : pydict F) :
  NoDup (dict_keys metrics) ->
  scan activities metrics = Ok metrics' ->
  scan activities metrics' = Ok metrics'.
Proof.
  unfold scan_activities_for_metrics. intros Hnd Hrun.
  apply (scan_loop_absorb activities metrics); try assumption.
  - apply (scan_loop_NoDup float_of_Q activities metrics metrics' Hrun Hnd).
  - reflexivity.
  - reflexivity.
Qed.
End ScannerMore.

Lemma scan_idempotent_witness :
  (NoDup (dict_keys [("startup_to_tabbar", 9%Q)]) /\
   scan_activities_for_metrics exact_float sample_activities
     [("startup_to_tabbar", 9%Q)]
   = Ok [("startup_to_tabbar", Qred 4.821);
         ("reopen_to_tabbar", Qred 1.102)]) /\
  scan_activities_for_metrics exact_float sample_activities
    [("startup_to_tabbar", Qred 4.821); ("reopen_to_tabbar", Qred 1.102)]
  = Ok [("startup_to_tabbar", Qred 4.821);
        ("reopen_to_tabbar", Qred 1.102)].
Proof.
  assert (Hnd : NoDup (dict_keys [("startup_to_tabbar", 9%Q)]))
    by apply NoDup_singleton.
  assert (H : scan_activities_for_metrics exact_float sample_activities
                [("startup_to_tabbar", 9%Q)]
              = Ok [("startup_to_tabbar", Qred 4.821);
                    ("reopen_to_tabbar", Qred 1.102)])
    by (vm_compute; reflexivity).
  split; [now split|].
  exact (scan_idempotent exact_float _ _ _ Hnd H).
Defined.

Lemma scan_frame_witness :
  scan_activities_for_metrics exact_float sample_activities
    [("cold_start", 9%Q)]
  = Ok [("cold_start", 9%Q);
        ("startup_to_tabbar", Qred 4.821);
        ("reopen_to_tabbar", Qred 1.102)] /\
  dict_keys [("cold_start", 9%Q)]
  `prefix_of` ["cold_start"; "startup_to_tabbar"; "reopen_to_tabbar"].
Proof.
  assert (H : scan_activities_for_metrics exact_float sample_activities
                [("cold_start", 9%Q)]
              = Ok [("cold_start", 9%Q);
                    ("startup_to_tabbar", Qred 4.821);
                    ("reopen_to_tabbar", Qred 1.102)])
    by (vm_compute; reflexivity).
  split; [exact H|].
  exact (proj1 (scan_frame exact_float _ _ _ H)).
Defined.

(** ** What a title can write *)

Section TitleMore.
Context {F : Type} (float_of_Q : Q -> F).

(** X8: the body of the title check never raises, and what it writes comes
    from the text of the title: it leaves the sink as it is, or the title is
    a string that holds the text of a marker, with a name made of letters,
    digits and underscores and a number that is digits, or digits, a point
    and digits, and the sink gets that name bound to the float of that
    number.  A sign, an exponent or a missing unit never gets through. *)
Theorem record_metric_sound (title : json) (metrics : pydict F) :
  exists metrics',
    record_metric float_of_Q title metrics = Ok metrics' /\
    (metrics' = metrics \/
     exists t before name number after q,
       title = JStr t /\
       t = (before ++ marker name number ++ after)%string /\
       is_name name /\ is_decimal number /\
       decimal_value number = Some q /\
       metrics' = dict_set name (float_of_Q q) metrics).
Proof.
  exists (recorded float_of_Q title metrics).
  split; [apply record_metric_ok|].
  unfold recorded, metric_of.
  destruct title as [| | |t| |]; try (now left).
  destruct (search METRIC_PATTERN t) as [m|] eqn:E; [|now left].
  apply search_metric_pattern
    in E as (name & number & -> & Hn & Hd & before & after & Ht).
  simpl. destruct (decimal_value_is_decimal number Hd) as [q Hq].
  rewrite Hq. right. now exists t, before, name, number, after, q.
Qed.
End TitleMore.

(** ** The report and the exit status *)

Section SortedMore.
Context {V : Type}.
Implicit Types (l : list (string * V)) (kv : string * V).

Lemma insert_item_perm kv l : insert_item kv l ≡ₚ kv :: l.
Proof.
  induction l as [|kv' l IH]; simpl; [reflexivity|].
  destruct (String.leb (fst kv) (fst kv')); [reflexivity|].
  rewrite IH. apply Permutation_swap.
Qed.

Lemma sorted_perm l : sorted l ≡ₚ l.
Proof.
  induction l as [|kv l IH]; simpl; [reflexivity|].
  now rewrite insert_item_perm, IH.
Qed.

Lemma dict_lookup_elem_of (d : pydict V) (n : string) (v : V) :
  NoDup (dict_keys d) -> (dict_lookup n d = Some v <-> (n, v) ∈ d).
Proof.
  unfold dict_keys. induction d as [|[k0 v0] d IH]; simpl; intros Hnd.
  - split; [discriminate|]. intros H. now apply elem_of_nil in H.
  - apply NoDup_cons in Hnd as [Hk0 Hnd]. rewrite elem_of_cons.
    destruct (String.eqb_spec n k0) as [->|Hne].
    + split; [intros [= ->]; now left|].
      intros [[= ->]|Hin]; [reflexivity|].
      destruct Hk0. apply list_elem_of_fmap. now exists (k0, v).
    + rewrite (IH Hnd). split; [now right|].
      intros [[= -> _]|Hin]; [now destruct Hne|assumption].
Qed.

Lemma dict_lookup_perm (d d' : pydict V) (n : string) :
  NoDup (dict_keys d) -> d ≡ₚ d' -> dict_lookup n d = dict_lookup n d'.
Proof.
  intros Hnd Hperm.
  assert (Hnd' : NoDup (dict_keys d')).
  { unfold dict_keys in *. now rewrite <- Hperm. }
  destruct (dict_lookup n d) as [v|] eqn:E.
  - symmetry. apply (dict_lookup_elem_of d' n v Hnd').
    rewrite <- Hperm. now apply (dict_lookup_elem_of d n v Hnd).
  - destruct (dict_lookup n d') as [v|] eqn:E'; [|reflexivity].
    apply (dict_lookup_elem_of d' n v Hnd') in E'.
    rewrite <- Hperm in E'.
    apply (dict_lookup_elem_of d n v Hnd) in E'. congruence.
Qed.
End SortedMore.

Section OrchestratorMore.
Context {F : Type} (float_of_Q : Q -> F).
Context (run_json_command : list string -> result json).

#[local] Abbreviation extract := (extract_metrics float_of_Q run_json_command).
#[local] Abbreviation answer :=
  (fun path id => run_json_command (activities_command path id)).

(** Whatever the answers are, a loop over the identifiers that returns has
    added the entries of the failed queries, and nothing else, to the
    errors. *)
Lemma scan_tests_errors path ids :
  forall st st',
    scan_tests float_of_Q run_json_command path ids st = Ok st' ->
    st'.2 = st.2 ++ failure_entries run_json_command path ids.
Proof.
  induction ids as [|id ids IH]; intros st st' H; simpl in H.
  - injection H as <-. unfold failure_entries. simpl. now rewrite app_nil_r.
  - apply bind_Ok in H as (st1 & H1 & H).
    rewrite (IH _ _ H), failure_entries_cons, app_assoc. f_equal.
    unfold scan_test, failure_entries in *. simpl.
    destruct (run_json_command (activities_command path id)) as [p|e].
    + apply bind_Ok in H1 as (runs & _ & H1). rewrite app_nil_r.
      destruct runs as [| | | |runs|]; try (now injection H1 as <-).
      now apply bind_Ok in H1 as (m & _ & [= <-]).
    + destruct e; try discriminate. now injection H1 as <-.
Qed.

(** X9: every report [extract_metrics] returns is consistent.  It names the
    bundle it was asked about; [metric_count] is the number of entries of
    [metrics]; [tests_scanned] is the number of identifiers collected from
    the answer to the tests query; [errors] holds exactly the entries of the
    identifiers whose query failed with an exit status, so there are never
    more errors than tests and the identifiers of the errors come in the
    order in which they were collected, none twice. *)
Theorem report_consistent (path : string) (r : report F) :
  extract path = Ok r ->
  xcresult_path r = path /\
  metric_count r = List.length (metrics r) /\
  exists payload test_nodes test_ids,
    run_json_command (tests_command path) = Ok (JDict payload) /\
    get "testNodes" payload = JList test_nodes /\
    collect_test_ids test_nodes = Ok test_ids /\
    tests_scanned r = List.length test_ids /\
    errors r = failure_entries run_json_command path test_ids /\
    List.length (errors r) <= tests_scanned r /\
    map test_id (errors r) `sublist_of` test_ids /\
    NoDup (map test_id (errors r)).
Proof.
  intros H.
  apply extract_metrics_Ok
    in H as (payload & nodes & ids & st & Hq & Hn & Hids & Hst & ->).
  simpl. split; [reflexivity|].
  assert (Hnd : NoDup (dict_keys st.1)).
  { apply (scan_tests_NoDup float_of_Q run_json_command path ids _ _ Hst).
    constructor. }
  assert (Herr : st.2 = failure_entries run_json_command path ids).
  { now rewrite (scan_tests_errors path ids _ _ Hst). }
  pose proof (failure_entries_sublist run_json_command path ids) as Hsub.
  split.
  - rewrite dict_of_items_NoDup by (now rewrite sorted_keys).
    now rewrite (Permutation_length (sorted_perm st.1)).
  - exists payload, nodes, ids. rewrite Herr.
    split_and!; try assumption; try reflexivity.
    + rewrite <- (length_map test_id). now apply sublist_length.
    + eapply sublist_NoDup; [|exact Hsub].
      apply (collect_loop_NoDup nodes (∅, []) ids Hids collect_inv_init).
Qed.

(** X10: sorting loses nothing.  The [metrics] of a report are the sink at
    the end of the loop over the identifiers collected from the answer to
    the tests query, started on an empty sink, in another order: the same
    entries, as many as [metric_count] says, and every name bound to the
    value it is bound to in that sink. *)
Theorem report_metrics_keep_bindings (path : string) (r : report F) :
  extract path = Ok r ->
  exists payload test_nodes test_ids found,
    run_json_command (tests_command path) = Ok (JDict payload) /\
    get "testNodes" payload = JList test_nodes /\
    collect_test_ids test_nodes = Ok test_ids /\
    scan_tests float_of_Q run_json_command path test_ids ([], []) = Ok found /\
    metrics r ≡ₚ found.1 /\
    metric_count r = List.length found.1 /\
    forall n, dict_lookup n (metrics r) = dict_lookup n found.1.
Proof.
  intros H.
  apply extract_metrics_Ok
    in H as (payload & nodes & ids & st & Hq & Hn & Hids & Hst & ->).
  simpl. exists payload, nodes, ids, st.
  split; [assumption|]. split; [assumption|].
  split; [assumption|]. split; [assumption|].
  assert (Hnd : NoDup (dict_keys st.1)).
  { apply (scan_tests_NoDup float_of_Q run_json_command path ids _ _ Hst).
    constructor. }
  rewrite dict_of_items_NoDup by (now rewrite sorted_keys).
  split; [apply sorted_perm|]. split; [reflexivity|].
  intros n. apply dict_lookup_perm; [|apply sorted_perm].
  unfold dict_keys. now rewrite sorted_keys.
Qed.

(** X11: a failure of the tests query is the failure of the run:
    [extract_metrics] raises what the query raised, and a run of [main]
    that got to the bundle at [path] exits with status 1 without a report
    when that is a failed tool or a document that is no JSON. *)
Theorem tests_query_failure_is_fatal (path : string) (e : exn) :
  run_json_command (tests_command path) = Raise e ->
  extract path = Raise e /\
  (e = JSONDecodeError \/ (exists status, e = CalledProcessError status) ->
   forall w args,
     started w args path ->
     main float_of_Q run_json_command w = Exit 1 None).
Proof.
  intros Hq.
  assert (He : extract path = Raise e)
    by (unfold extract_metrics; now rewrite Hq).
  split; [assumption|]. intros Hkind w args Hs.
  rewrite (main_started _ _ w args path Hs). unfold main_try. rewrite He.
  now destruct Hkind as [->|[status ->]].
Qed.

(** X12: [main] does not catch [AttributeError].  When the answer to the
    tests query is a document that is no object, or its [testNodes] list has
    an entry that is no object, [extract_metrics] raises [AttributeError] and
    a run of [main] that got to the bundle at [path] ends with that exception
    instead of its error message. *)
Theorem malformed_tree_escapes_main (path : string) (answer_doc : json) :
  run_json_command (tests_command path) = Ok answer_doc ->
  is_dict answer_doc = false \/
  (exists payload test_nodes,
     answer_doc = JDict payload /\
     get "testNodes" payload = JList test_nodes /\
     Exists (fun j => is_dict j = false) test_nodes) ->
  extract path = Raise AttributeError /\
  forall w args,
    started w args path ->
    main float_of_Q run_json_command w = Uncaught AttributeError.
Proof.
  intros Hq Hbad.
  assert (He : extract path = Raise AttributeError).
  { unfold extract_metrics. rewrite Hq. simpl.
    destruct Hbad as [Hnd|(payload & nodes & -> & Hn & Hex)].
    - destruct answer_doc; try reflexivity. discriminate.
    - simpl. rewrite Hn. unfold collect_test_ids.
      now rewrite (collect_loop_raises nodes (∅, []) Hex). }
  split; [assumption|]. intros w args Hs.
  rewrite (main_started _ _ w args path Hs). unfold main_try.
  now rewrite He.
Qed.
End OrchestratorMore.

(** A tool that cannot run. *)
Definition broken_tool (command : list string) : result json :=
  Raise (CalledProcessError 72).

Lemma tests_query_failure_is_fatal_witness :
  broken_tool (tests_command "Trai.xcresult") = Raise (CalledProcessError 72) /\
  main exact_float broken_tool (sample_host None) = Exit 1 None.
Proof.
  split; [reflexivity|].
  exact (proj2 (tests_query_failure_is_fatal exact_float broken_tool
                  "Trai.xcresult" (CalledProcessError 72) eq_refl)
           (or_intror (ex_intro _ 72%Z eq_refl))
           (sample_host None) _ (sample_host_started None)).
Defined.

(** A tool that answers every query with a list. *)
Definition list_tool (command : list string) : result json :=
  Ok (JList []).

Lemma malformed_tree_escapes_main_witness :
  (list_tool (tests_command "Trai.xcresult") = Ok (JList []) /\
   is_dict (JList []) = false) /\
  main exact_float list_tool (sample_host None) = Uncaught AttributeError.
Proof.
  split; [now split|].
  exact (proj2 (malformed_tree_escapes_main exact_float list_tool
                  "Trai.xcresult" (JList []) eq_refl (or_introl eq_refl))
           (sample_host None) _ (sample_host_started None)).
Defined.

Lemma report_consistent_witness :
  exists r,
    extract_metrics exact_float sample_tool "Trai.xcresult" = Ok r /\
    metric_count r = List.length (metrics r) /\
    List.length (errors r) = 1 /\ tests_scanned r = 3.
Proof.
  destruct (extract_metrics exact_float sample_tool "Trai.xcresult")
    as [r|e] eqn:H; [|vm_compute in H; discriminate H].
  exists r. split; [reflexivity|].
  split;
    [exact (proj1 (proj2 (report_consistent exact_float sample_tool
                            "Trai.xcresult" r H)))|].
  vm_compute in H. injection H as <-. now split.
Defined.

Lemma report_metrics_keep_bindings_witness :
  exists r,
    extract_metrics exact_float sample_tool "Trai.xcresult" = Ok r /\
    exists found,
      scan_tests exact_float sample_tool "Trai.xcresult"
        ["test://C"; "test://B"; "test://A"] ([], [])
      = Ok found /\
      metrics r ≡ₚ found.1.
Proof.
  destruct (extract_metrics exact_float sample_tool "Trai.xcresult")
    as [r|e] eqn:H; [|vm_compute in H; discriminate H].
  exists r. split; [reflexivity|].
  destruct (report_metrics_keep_bindings exact_float sample_tool
              "Trai.xcresult" r H)
    as (payload & nodes & ids & found & Hq & Hn & Hids & Hrun & Hperm & _).
  injection Hq as <-. vm_compute in Hn. injection Hn as <-.
  vm_compute in Hids. injection Hids as <-.
  exists found. exact (conj Hrun Hperm).
Defined.

(** *** Answers the loop over the identifiers cannot go past, and answers
    with nothing in them *)

(** An answer to an activities query that ends the run: an exception other
    than a failed tool, or a document that is no object. *)
Definition aborting (a : result json) : Prop :=
  (exists e, a = Raise e /\ forall status, e <> CalledProcessError status) \/
  (exists doc, a = Ok doc /\ is_dict doc = false).

(** Whether a run has an [activities] list. *)
Definition has_activities (run : json) : bool :=
  match run with
  | JDict run =>
      match get "activities" run with
      | JList _ => true
      | _ => false
      end
  | _ => false
  end.

(** An answer with no activities to scan: an object without a [testRuns]
    list, or one whose runs are no objects or have no [activities] list. *)
Definition barren (a : result json) : bool :=
  match a with
  | Ok (JDict payload) =>
      match get "testRuns" payload with
      | JList test_runs =>
          forallb (fun run => negb (has_activities run)) test_runs
      | _ => true
      end
  | _ => false
  end.

Section OrchestratorEdges.
Context {F : Type} (float_of_Q : Q -> F).
Context (run_json_command : list string -> result json).

#[local] Abbreviation extract := (extract_metrics float_of_Q run_json_command).
#[local] Abbreviation answer :=
  (fun path id => run_json_command (activities_command path id)).

Lemma scan_test_aborting path id st :
  aborting (answer path id) ->
  exists e, scan_test float_of_Q run_json_command path id st = Raise e.
Proof.
  unfold scan_test.
  intros [(e & -> & Hne)|(doc & -> & Hdoc)].
  - destruct e as [status| | | | | |]; try (now eexists).
    now destruct (Hne status).
  - destruct doc; try discriminate; now eexists.
Qed.

Lemma scan_tests_aborting path ids id :
  id ∈ ids -> aborting (answer path id) ->
  forall st,
  exists e, scan_tests float_of_Q run_json_command path ids st = Raise e.
Proof.
  intros Hin Hab. induction ids as [|id0 ids IH]; intros st.
  - now apply elem_of_nil in Hin.
  - simpl.
    destruct (scan_test float_of_Q run_json_command path id0 st)
      as [st1|e] eqn:H1; [|now exists e].
    apply elem_of_cons in Hin as [->|Hin].
    + destruct (scan_test_aborting path id0 st Hab) as [e He]. congruence.
    + apply (IH Hin).
Qed.

(** X13: only a failed tool is forgiven.  When the activities query of some
    collected identifier raises anything else (a document that is no JSON,
    say) or is answered with a document that is no object, [extract_metrics]
    raises and returns no report, whatever the other identifiers gave, and
    no run of [main] on the bundle at [path] prints one. *)
Theorem unreadable_answer_aborts (path : string) (payload : pydict json)
    (test_nodes : list json) (test_ids : list string) (id : string) :
  run_json_command (tests_command path) = Ok (JDict payload) ->
  get "testNodes" payload = JList test_nodes ->
  collect_test_ids test_nodes = Ok test_ids ->
  id ∈ test_ids ->
  aborting (answer path id) ->
  (exists e, extract path = Raise e) /\
  (forall w args status r,
     parse_args w = Parsed args ->
     expanduser w (xcresult args) = Ok path ->
     main float_of_Q run_json_command w <> Exit status (Some r)).
Proof.
  intros Hq Hn Hids Hin Hab.
  destruct (scan_tests_aborting path test_ids id Hin Hab ([], [])) as [e He].
  assert (Hx : extract path = Raise e).
  { unfold extract_metrics. rewrite Hq. simpl. rewrite Hn, Hids. simpl.
    now rewrite He. }
  split; [now exists e|].
  intros w args status r Hp He'. unfold main. rewrite Hp, He', Hx.
  destruct (path_exists w path) as [[]|e0]; simpl; try discriminate.
  destruct e; discriminate.
Qed.

Lemma scan_runs_barren (test_runs : list json) (metrics : pydict F) :
  forallb (fun run => negb (has_activities run)) test_runs = true ->
  scan_runs float_of_Q test_runs metrics = Ok metrics.
Proof.
  induction test_runs as [|run runs IH]; [reflexivity|]. simpl.
  intros H. apply andb_prop in H as [Hrun Hruns].
  destruct run as [| | | | |r]; try (now apply IH).
  simpl in Hrun. destruct (get "activities" r); try (now apply IH).
  discriminate.
Qed.

Lemma scan_tests_barren path ids :
  (forall id, id ∈ ids -> barren (answer path id) = true) ->
  forall st, scan_tests float_of_Q run_json_command path ids st = Ok st.
Proof.
  induction ids as [|id ids IH]; intros Hb st; [reflexivity|].
  simpl. unfold scan_test.
  pose proof (Hb id ltac:(now left)) as Hid. unfold barren in Hid.
  destruct (run_json_command (activities_command path id)) as [doc|e];
    [|discriminate].
  destruct doc as [| | | | |p]; try discriminate. simpl.
  assert (Hrest : forall id', id' ∈ ids -> barren (answer path id') = true)
    by (intros id' H; apply Hb; now right).
  destruct (get "testRuns" p) as [| | | |runs|]; simpl;
    try (now apply IH).
  rewrite (scan_runs_barren runs st.1 Hid). simpl.
  destruct st. now apply IH.
Qed.

(** X14: a test case without runs is no error.  When every collected
    identifier is answered with an object that has no [testRuns] list, or
    whose runs are no objects or have no [activities] list, the report
    counts the identifiers and has no metric and no error. *)
Theorem barren_answers_give_an_empty_report (path : string)
    (payload : pydict json) (test_nodes : list json) (test_ids : list string) :
  run_json_command (tests_command path) = Ok (JDict payload) ->
  get "testNodes" payload = JList test_nodes ->
  collect_test_ids test_nodes = Ok test_ids ->
  (forall id, id ∈ test_ids -> barren (answer path id) = true) ->
  extract path = Ok (Report path (List.length test_ids) 0 [] []).
Proof.
  intros Hq Hn Hids Hb. unfold extract_metrics.
  rewrite Hq. simpl. rewrite Hn, Hids. simpl.
  now rewrite (scan_tests_barren path test_ids Hb).
Qed.

(** X16: what [main] prints and how it exits, case by case.  It prints a
    report, and then exits with status 0, exactly when the command line was
    accepted, the path expanded, the bundle is there, [extract_metrics]
    returned that report and the file of [--out], if one was asked for, was
    written.  When writing that file raises, the exception gets out of
    [main] and nothing is printed, though the report was there.  It exits
    without a report exactly when argparse made the exit (with argparse's
    status), or with status 1 when the bundle is not there or
    [extract_metrics] raised one of the three exceptions [main] handles.  An
    exception gets out of [main] exactly when it was raised by expanding the
    bundle path, by looking whether the bundle is there, by
    [extract_metrics] (and is none of the three), or by writing the file of
    [--out]. *)
Theorem main_exit_contract (w : host F) :
  (forall status r,
     main float_of_Q run_json_command w = Exit status (Some r) <->
     status = 0%Z /\
     exists args path,
       started w args path /\ extract path = Ok r /\
       write_out w args r = Ok tt) /\
  (forall args path r e,
     started w args path -> extract path = Ok r ->
     write_out w args r = Raise e ->
     main float_of_Q run_json_command w = Uncaught e) /\
  (forall status,
     main float_of_Q run_json_command w = Exit status None <->
     parse_args w = SystemExit status \/
     status = 1%Z /\
     exists args path,
       parse_args w = Parsed args /\
       expanduser w (xcresult args) = Ok path /\
       (path_exists w path = Ok false \/
        path_exists w path = Ok true /\
        exists e, extract path = Raise e /\ caught e = true)) /\
  (forall e,
     main float_of_Q run_json_command w = Uncaught e <->
     exists args,
       parse_args w = Parsed args /\
       (expanduser w (xcresult args) = Raise e \/
        exists path,
          expanduser w (xcresult args) = Ok path /\
          (path_exists w path = Raise e \/
           path_exists w path = Ok true /\
           (extract path = Raise e /\ caught e = false \/
            exists r, extract path = Ok r /\
                      write_out w args r = Raise e)))).
Proof.
  split_and!.
  - intros status r. split.
    + unfold main.
      destruct (parse_args w) as [args|s0] eqn:Hp; [|discriminate].
      destruct (expanduser w (xcresult args)) as [path|e] eqn:He;
        [|discriminate].
      destruct (path_exists w path) as [[]|e] eqn:Hx; simpl;
        try discriminate.
      destruct (extract path) as [r0|e] eqn:Hr;
        [|destruct e; discriminate].
      destruct (write_out w args r0) as [[]|e] eqn:Hw; [|discriminate].
      intros [= <- <-]. split; [reflexivity|].
      exists args, path. now split_and!.
    + intros (-> & args & path & Hs & Hr & Hw).
      rewrite (main_started _ _ w args path Hs). unfold main_try.
      now rewrite Hr, Hw.
  - intros args path r e Hs Hr Hw.
    rewrite (main_started _ _ w args path Hs). unfold main_try.
    now rewrite Hr, Hw.
  - intros status. split.
    + unfold main.
      destruct (parse_args w) as [args|s0] eqn:Hp;
        [|intros [= <-]; now left].
      destruct (expanduser w (xcresult args)) as [path|e] eqn:He;
        [|discriminate].
      destruct (path_exists w path) as [[]|e] eqn:Hx; simpl;
        try discriminate.
      * destruct (extract path) as [r0|e] eqn:Hr.
        { destruct (write_out w args r0); discriminate. }
        assert (Hc : caught e = true -> status = 1%Z ->
                     Parsed args = SystemExit status \/
                     status = 1%Z /\
                     exists args0 path0,
                       Parsed args = Parsed args0 /\
                       expanduser w (xcresult args0) = Ok path0 /\
                       (path_exists w path0 = Ok false \/
                        path_exists w path0 = Ok true /\
                        exists e0, extract path0 = Raise e0 /\
                                   caught e0 = true)).
        { intros Hc ->. right. split; [reflexivity|].
          exists args, path. split_and!; [reflexivity|exact He|].
          right. split; [exact Hx|]. now exists e. }
        destruct e; try discriminate; intros [= <-]; now apply Hc.
      * intros [= <-]. right. split; [reflexivity|].
        exists args, path. split_and!; [reflexivity|exact He|].
        now left.
    + unfold main.
      intros [Hp|(-> & args & path & Hp & He & [Hx|(Hx & e & Hr & Hc)])].
      * now rewrite Hp.
      * now rewrite Hp, He, Hx.
      * rewrite Hp, He, Hx, Hr. simpl. destruct e; try discriminate Hc;
          reflexivity.
  - intros e. split.
    + unfold main.
      destruct (parse_args w) as [args|s0] eqn:Hp; [|discriminate].
      destruct (expanduser w (xcresult args)) as [path|e0] eqn:He.
      2:{ intros [= <-]. exists args. split; [reflexivity|]. now left. }
      destruct (path_exists w path) as [[]|e0] eqn:Hx; simpl.
      * destruct (extract path) as [r0|e0] eqn:Hr.
        { destruct (write_out w args r0) as [[]|e1] eqn:Hw;
            [discriminate|].
          intros [= <-]. exists args. split; [reflexivity|]. right.
          exists path. split; [exact He|]. right.
          split; [exact Hx|]. right. now exists r0. }
        assert (Hc : caught e0 = false -> e0 = e ->
                     exists args0,
                       Parsed args = Parsed args0 /\
                       (expanduser w (xcresult args0) = Raise e \/
                        exists path0,
                          expanduser w (xcresult args0) = Ok path0 /\
                          (path_exists w path0 = Raise e \/
                           path_exists w path0 = Ok true /\
                           (extract path0 = Raise e /\ caught e = false \/
                            exists r, extract path0 = Ok r /\
                                      write_out w args0 r = Raise e)))).
        { intros Hc <-. exists args. split; [reflexivity|]. right.
          exists path. split; [exact He|]. right. split; [exact Hx|].
          left. now split. }
        destruct e0; try discriminate; intros [= <-]; now apply Hc.
      * discriminate.
      * intros [= <-]. exists args. split; [reflexivity|]. right.
        exists path. split; [exact He|]. now left.
    + unfold main.
      intros (args & Hp & [He|(path & He &
                [Hx|(Hx & [(Hr & Hc)|(r & Hr & Hw)])])]).
      * now rewrite Hp, He.
      * now rewrite Hp, He, Hx.
      * rewrite Hp, He, Hx, Hr. simpl. destruct e; try discriminate Hc;
          reflexivity.
      * rewrite Hp, He, Hx, Hr. simpl. now rewrite Hw.
Qed.
End OrchestratorEdges.


(** X15: the run asks the tool nothing but the tests query and the
    activities query of each collected identifier: two tools that agree on
    these give the same outcome, report or exception, whatever they would
    answer to anything else. *)
Theorem extract_metrics_asks_only_its_queries {F : Type}
    (float_of_Q : Q -> F) (tool tool' : list string -> result json)
    (path : string) :
  tool (tests_command path) = tool' (tests_command path) ->
  (forall payload test_nodes test_ids id,
     tool (tests_command path) = Ok (JDict payload) ->
     get "testNodes" payload = JList test_nodes ->
     collect_test_ids test_nodes = Ok test_ids ->
     id ∈ test_ids ->
     tool (activities_command path id) = tool' (activities_command path id)) ->
  extract_metrics float_of_Q tool path = extract_metrics float_of_Q tool' path.
Proof.
  intros Htests Hacts. unfold extract_metrics. rewrite <- Htests.
  destruct (tool (tests_command path)) as [doc|e] eqn:Hq; [|reflexivity].
  destruct doc as [| | | | |payload]; try reflexivity. simpl.
  destruct (get "testNodes" payload) as [| | | |nodes|] eqn:Hn;
    try reflexivity.
  destruct (collect_test_ids nodes) as [ids|e] eqn:Hids; [|reflexivity].
  simpl.
  assert (Hsame : forall ids' st,
            (forall id, id ∈ ids' ->
               tool (activities_command path id)
               = tool' (activities_command path id)) ->
            scan_tests float_of_Q tool path ids' st
            = scan_tests float_of_Q tool' path ids' st).
  { induction ids' as [|id ids' IH]; intros st Hag; [reflexivity|]. simpl.
    assert (H1 : scan_test float_of_Q tool path id st
                 = scan_test float_of_Q tool' path id st).
    { unfold scan_test. now rewrite (Hag id ltac:(now left)). }
    rewrite H1.
    destruct (scan_test float_of_Q tool' path id st) as [st1|e];
      [|reflexivity].
    simpl. apply IH. intros id' H. apply Hag. now right. }
  rewrite (Hsame ids ([], [])); [reflexivity|].
  intros id Hin. now apply (Hacts payload nodes ids id).
Qed.

(** A tool whose answer for one test case is no JSON. *)
Definition garbled_tool (command : list string) : result json :=
  if bool_decide (command = tests_command "Trai.xcresult")
  then Ok (JDict sample_tree)
  else if bool_decide
            (command = activities_command "Trai.xcresult" "test://B")
  then Raise JSONDecodeError
  else Ok (runs_of [activity "Latency metric startup_to_tabbar=4.821s"]).

Lemma unreadable_answer_aborts_witness :
  (garbled_tool (tests_command "Trai.xcresult") = Ok (JDict sample_tree) /\
   garbled_tool (activities_command "Trai.xcresult" "test://B")
   = Raise JSONDecodeError) /\
  exists e, extract_metrics exact_float garbled_tool "Trai.xcresult" = Raise e.
Proof.
  split; [now split|].
  assert (Hids : collect_test_ids
                   (match get "testNodes" sample_tree with
                    | JList l => l
                    | _ => []
                    end)
                 = Ok ["test://C"; "test://B"; "test://A"])
    by (vm_compute; reflexivity).
  assert (Hin : "test://B" ∈ ["test://C"; "test://B"; "test://A"])
    by (right; now left).
  assert (Hab : aborting
                  (garbled_tool
                     (activities_command "Trai.xcresult" "test://B"))).
  { left. exists JSONDecodeError. split; [reflexivity|discriminate]. }
  exact (proj1 (unreadable_answer_aborts exact_float garbled_tool
                  "Trai.xcresult" sample_tree _ _ "test://B"
                  eq_refl eq_refl Hids Hin Hab)).
Defined.

(** A tool that knows the test cases and has no runs for any. *)
Definition quiet_tool (command : list string) : result json :=
  if bool_decide (command = tests_command "Trai.xcresult")
  then Ok (JDict sample_tree)
  else Ok (JDict [("devices", JList [])]).

Lemma barren_answers_give_an_empty_report_witness :
  (quiet_tool (tests_command "Trai.xcresult") = Ok (JDict sample_tree) /\
   barren (quiet_tool (activities_command "Trai.xcresult" "test://A"))
   = true) /\
  extract_metrics exact_float quiet_tool "Trai.xcresult"
  = Ok (Report "Trai.xcresult" 3 0 [] []).
Proof.
  split; [now split|].
  assert (Hids : collect_test_ids
                   (match get "testNodes" sample_tree with
                    | JList l => l
                    | _ => []
                    end)
                 = Ok ["test://C"; "test://B"; "test://A"])
    by (vm_compute; reflexivity).
  assert (Hb : forall id, id ∈ ["test://C"; "test://B"; "test://A"] ->
            barren (quiet_tool (activities_command "Trai.xcresult" id))
            = true).
  { intros id Hin.
    repeat (apply elem_of_cons in Hin as [->|Hin]; [reflexivity|]).
    now apply elem_of_nil in Hin. }
  exact (barren_answers_give_an_empty_report exact_float quiet_tool
           "Trai.xcresult" sample_tree _ _ eq_refl eq_refl Hids Hb).
Defined.

(** A host whose output directory cannot be made. *)
Definition read_only_host : host Q :=
  Host (Parsed (Namespace "Trai.xcresult" (Some "reports/latency.json") true))
       (fun p => Ok p) (fun _ => Ok true)
       (fun _ => Raise OSError) (fun _ _ _ => Ok tt).

Lemma main_exit_contract_witness :
  (extract_metrics exact_float quiet_tool "Trai.xcresult"
   = Ok (Report "Trai.xcresult" 3 0 [] []) /\
   write_out read_only_host
     (Namespace "Trai.xcresult" (Some "reports/latency.json") true)
     (Report "Trai.xcresult" 3 0 [] [])
   = Raise OSError) /\
  main exact_float quiet_tool read_only_host = Uncaught OSError.
Proof.
  assert (Hr : extract_metrics exact_float quiet_tool "Trai.xcresult"
               = Ok (Report "Trai.xcresult" 3 0 [] []))
    by (vm_compute; reflexivity).
  split; [split; [exact Hr|reflexivity]|].
  refine (proj1 (proj2 (main_exit_contract exact_float quiet_tool
                          read_only_host))
            (Namespace "Trai.xcresult" (Some "reports/latency.json") true)
            "Trai.xcresult" _ OSError _ Hr eq_refl).
  now split_and!.
Defined.

(** The sample tool, with an answer to a command the script never runs. *)
Definition chatty_tool (command : list string) : result json :=
  if bool_decide (command = ["xcrun"; "--version"])
  then Ok (JStr "xcrun version 70")
  else sample_tool command.

Lemma extract_metrics_asks_only_its_queries_witness :
  (chatty_tool ["xcrun"; "--version"] <> sample_tool ["xcrun"; "--version"] /\
   chatty_tool (tests_command "Trai.xcresult")
   = sample_tool (tests_command "Trai.xcresult")) /\
  extract_metrics exact_float chatty_tool "Trai.xcresult"
  = extract_metrics exact_float sample_tool "Trai.xcresult".
Proof.
  split; [split; [discriminate|reflexivity]|].
  apply extract_metrics_asks_only_its_queries; [reflexivity|].
  intros payload nodes ids id _ _ _ _. reflexivity.
Defined.

(** *** Where the metrics of a report come from *)

Section ReportProvenance.
Context {F : Type} (float_of_Q : Q -> F).
Context (run_json_command : list string -> result json).

(** Some activity of some run of the answer carries the metric [n] with the
    value [v]. *)
Definition carries_value (a : result json) (n : string) (v : F) : Prop :=
  exists payload test_runs run activities act,
    a = Ok (JDict payload) /\
    get "testRuns" payload = JList test_runs /\
    JDict run ∈ test_runs /\
    get "activities" run = JList activities /\
    reaches "childActivities" activities act /\
    metric_of float_of_Q (get "title" act) = Some (n, v).

Lemma scan_loop_from (stack : list json) (metrics metrics' : pydict F)
    (n : string) (v : F) :
  scan_loop float_of_Q stack metrics = Ok metrics' ->
  dict_lookup n metrics' = Some v ->
  dict_lookup n metrics = Some v \/
  exists a, reaches "childActivities" stack a /\
            metric_of float_of_Q (get "title" a) = Some (n, v).
Proof.
  intros Hrun Hv.
  destruct (scan_loop_spec float_of_Q stack metrics
              (scan_loop_Ok_dicts float_of_Q _ _ _ Hrun))
    as (m & Hm & Hfrom & _).
  rewrite Hrun in Hm. injection Hm as <-.
  destruct (Hfrom n v Hv) as [H|[H _]]; [now right|now left].
Qed.

Lemma run_activities_inv (run : json) (activities : list json) :
  run_activities run = Some activities ->
  exists r, run = JDict r /\ get "activities" r = JList activities.
Proof.
  destruct run as [| | | | |r]; try discriminate. simpl.
  destruct (get "activities" r) as [| | | |l|] eqn:E; try discriminate.
  intros [= <-]. now exists r.
Qed.

Lemma scan_runs_from (test_runs : list json) :
  forall metrics metrics' n v,
    scan_runs float_of_Q test_runs metrics = Ok metrics' ->
    dict_lookup n metrics' = Some v ->
    dict_lookup n metrics = Some v \/
    exists run activities a,
      JDict run ∈ test_runs /\
      get "activities" run = JList activities /\
      reaches "childActivities" activities a /\
      metric_of float_of_Q (get "title" a) = Some (n, v).
Proof.
  induction test_runs as [|run runs IH]; intros metrics metrics' n v Hrun Hv.
  - simpl in Hrun. injection Hrun as <-. now left.
  - rewrite scan_runs_cons in Hrun.
    assert (Hlater :
      (exists r acts a,
         JDict r ∈ runs /\ get "activities" r = JList acts /\
         reaches "childActivities" acts a /\
         metric_of float_of_Q (get "title" a) = Some (n, v)) ->
      exists r acts a,
         JDict r ∈ run :: runs /\ get "activities" r = JList acts /\
         reaches "childActivities" acts a /\
         metric_of float_of_Q (get "title" a) = Some (n, v)).
    { intros (r & acts & a & Hin & H). exists r, acts, a.
      split; [now right|assumption]. }
    destruct (run_activities run) as [activities|] eqn:Hacts.
    + apply bind_Ok in Hrun as (m1 & H1 & Hrun).
      destruct (IH _ _ n v Hrun Hv) as [Hm1|H]; [|right; now apply Hlater].
      destruct (scan_loop_from activities metrics m1 n v H1 Hm1)
        as [H|(a & Ha & Hm)]; [now left|].
      apply run_activities_inv in Hacts as (r & -> & Hget).
      right. exists r, activities, a. split; [now left|now split_and!].
    + destruct (IH _ _ n v Hrun Hv) as [H|H];
        [now left|right; now apply Hlater].
Qed.

Lemma scan_test_from path id st st' n v :
  scan_test float_of_Q run_json_command path id st = Ok st' ->
  dict_lookup n st'.1 = Some v ->
  dict_lookup n st.1 = Some v \/
  carries_value (run_json_command (activities_command path id)) n v.
Proof.
  unfold scan_test, carries_value.
  destruct (run_json_command (activities_command path id)) as [doc|e].
  - destruct doc as [| | | | |payload]; try discriminate. simpl.
    destruct (get "testRuns" payload) as [| | | |runs|] eqn:Hruns;
      try (intros [= <-]; now left).
    intros H Hv. apply bind_Ok in H as (m & Hm & [= <-]). simpl in Hv.
    destruct (scan_runs_from runs _ _ n v Hm Hv)
      as [H|(run & acts & a & Hin & Hget & Ha & Hmet)]; [now left|].
    right. exists payload, runs, run, acts, a. now split_and!.
  - destruct e; try discriminate. intros [= <-]. now left.
Qed.

Lemma scan_tests_from path ids :
  forall st st' n v,
    scan_tests float_of_Q run_json_command path ids st = Ok st' ->
    dict_lookup n st'.1 = Some v ->
    dict_lookup n st.1 = Some v \/
    exists id, id ∈ ids /\
      carries_value (run_json_command (activities_command path id)) n v.
Proof.
  induction ids as [|id ids IH]; intros st st' n v Hrun Hv; simpl in Hrun.
  - injection Hrun as <-. now left.
  - apply bind_Ok in Hrun as (st1 & H1 & Hrun).
    destruct (IH _ _ n v Hrun Hv) as [Hst1|(id' & Hin & Hc)].
    + destruct (scan_test_from path id st st1 n v H1 Hst1) as [H|H];
        [now left|].
      right. exists id. split; [now left|assumption].
    + right. exists id'. split; [now right|assumption].
Qed.

(** X18: a report holds nothing that was not logged.  Every name the
    [metrics] of a report bind, with the value they bind it to, is the metric
    that the title of some activity carries, in some run of the answer to the
    activities query of some collected identifier. *)
Theorem report_metrics_provenance (path : string) (r : report F)
    (n : string) (v : F) :
  extract_metrics float_of_Q run_json_command path = Ok r ->
  dict_lookup n (metrics r) = Some v ->
  exists payload test_nodes test_ids id,
    run_json_command (tests_command path) = Ok (JDict payload) /\
    get "testNodes" payload = JList test_nodes /\
    collect_test_ids test_nodes = Ok test_ids /\
    id ∈ test_ids /\
    carries_value (run_json_command (activities_command path id)) n v.
Proof.
  intros H Hv.
  apply extract_metrics_Ok
    in H as (payload & nodes & ids & st & Hq & Hn & Hids & Hst & ->).
  simpl in Hv.
  assert (Hnd : NoDup (dict_keys st.1)).
  { apply (scan_tests_NoDup float_of_Q run_json_command path ids _ _ Hst).
    constructor. }
  rewrite dict_of_items_NoDup in Hv by (now rewrite sorted_keys).
  rewrite (dict_lookup_perm (sorted st.1) st.1 n) in Hv;
    [|unfold dict_keys; now rewrite sorted_keys|apply sorted_perm].
  destruct (scan_tests_from path ids _ _ n v Hst Hv) as [H|(id & Hin & Hc)];
    [discriminate|].
  now exists payload, nodes, ids, id.
Qed.
End ReportProvenance.

Lemma report_metrics_provenance_witness :
  (extract_metrics exact_float sample_tool "Trai.xcresult"
   = Ok (Report "Trai.xcresult" 3 2
           [("reopen_to_tabbar", Qred 1.102);
            ("startup_to_tabbar", Qred 4.821)]
           [ExtractionError "test://B"
              "xcresulttool activities failed with exit code 1"]) /\
   dict_lookup "reopen_to_tabbar"
     [("reopen_to_tabbar", Qred 1.102); ("startup_to_tabbar", Qred 4.821)]
   = Some (Qred 1.102)) /\
  exists id,
    carries_value exact_float
      (sample_tool (activities_command "Trai.xcresult" id))
      "reopen_to_tabbar" (Qred 1.102).
Proof.
  assert (H : extract_metrics exact_float sample_tool "Trai.xcresult"
              = Ok (Report "Trai.xcresult" 3 2
                      [("reopen_to_tabbar", Qred 1.102);
                       ("startup_to_tabbar", Qred 4.821)]
                      [ExtractionError "test://B"
                         "xcresulttool activities failed with exit code 1"]))
    by (vm_compute; reflexivity).
  split; [now split|].
  destruct (report_metrics_provenance exact_float sample_tool "Trai.xcresult"
              _ "reopen_to_tabbar" (Qred 1.102) H eq_refl)
    as (payload & nodes & ids & id & _ & _ & _ & _ & Hc).
  exists id. exact Hc.
Defined.
